(** * Insurance quote algorithm: a shallow embedding of [insurance_quote.py]

    The development follows the Python sources:
    - [weights/policy_weights.py] and [weights/discount_weights.py]: the two
      static lookup tables;
    - [inputs/quote_inputs.py]: the input records;
    - [default_checker.py]: the diagnostic audit of default values;
    - [insurance_quote.py]: scorers, aggregators, the two resolvers and
      [calculate_quote].

    Numbers.  Python evaluates the formulas on [int] and [float] values.  Every
    function below is written once, over an interface [PyNumber] of the
    arithmetic the source uses, and read at two instances:
    - [Q], exact rational arithmetic, in which the universally quantified
      properties of the formulas are proved;
    - [float], the kernel's IEEE 754 binary64 numbers (the representation of
      a Python [float]), on which the same definitions are evaluated at
      concrete inputs.

    Effects.  The only effect of the code is logging through the process-wide
    [LOGGER] and raising exceptions; a computation is a function from the log
    so far to an outcome (a value or a raised exception) and the new log. *)

From Stdlib Require Import QArith Qabs Lqa Uint63 Floats ZArith String Lia.
From stdpp Require Import gmap strings list.

Set Warnings "-inexact-float".

(* ===================================================================== *)
(** ** Python numbers *)
(* ===================================================================== *)

(** The arithmetic used by the source: literals, [+], [-], [*], [/] (true
    division), unary minus, [<] and [==]. *)
Class PyNumber (N : Type) := {
  lit : Q -> N;
  add : N -> N -> N;
  sub : N -> N -> N;
  mul : N -> N -> N;
  truediv : N -> N -> N;
  neg : N -> N;
  lt : N -> N -> bool;
  eq : N -> N -> bool
}.
Arguments lit {N _} _%_Q.

Declare Scope py_scope.
Delimit Scope py_scope with py.
Infix "+" := add : py_scope.
Infix "-" := sub : py_scope.
Infix "*" := mul : py_scope.
Infix "/" := truediv : py_scope.
Notation "- x" := (neg x) : py_scope.
Infix "<?" := lt : py_scope.
Infix "=?" := eq : py_scope.

(** Exact arithmetic. *)
#[global] Instance Q_number : PyNumber Q := {|
  lit q := q;
  add := Qplus;
  sub := Qminus;
  mul := Qmult;
  truediv := Qdiv;
  neg := Qopp;
  lt x y := negb (Qle_bool y x);
  eq := Qeq_bool
|}.

(** Binary64 arithmetic.  A literal [n/d] of the source text is the correctly
    rounded quotient of the two integers, which is the float Python's parser
    gives for it as long as [n] and [d] are below [2^53]. *)
Definition float_of_Z (z : Z) : float :=
  match z with
  | Z0 => PrimFloat.of_uint63 (Uint63.of_Z 0)
  | Zpos _ => PrimFloat.of_uint63 (Uint63.of_Z z)
  | Zneg p => PrimFloat.opp (PrimFloat.of_uint63 (Uint63.of_Z (Zpos p)))
  end.

#[global] Instance binary64 : PyNumber float := {|
  lit q := PrimFloat.div (float_of_Z (Qnum q)) (float_of_Z (Zpos (Qden q)));
  add := PrimFloat.add;
  sub := PrimFloat.sub;
  mul := PrimFloat.mul;
  truediv := PrimFloat.div;
  neg := PrimFloat.opp;
  lt := PrimFloat.ltb;
  eq := PrimFloat.eqb
|}.

(** The rational number a finite binary64 value denotes. *)
Definition Q_of_float (f : float) : option Q :=
  match Prim2SF f with
  | S754_zero _ => Some 0%Q
  | S754_finite s m e =>
      let mag := (inject_Z (Zpos m) * Qpower 2 e)%Q in
      Some (if s then Qopp mag else mag)
  | _ => None
  end.

(** [close x q]: the binary64 value [x] is finite and within [1e-9] of the
    rational [q] (the tolerance the specification allows). *)
Definition close (x : float) (q : Q) : bool :=
  match Q_of_float x with
  | Some v => negb (Qle_bool 0.000000001 (Qabs (v - q)))
  | None => false
  end.

(* ===================================================================== *)
(** ** Risk scorers and aggregators ([insurance_quote.py]) *)
(* ===================================================================== *)

Section Formulas.
Context {N : Type} `{PyNumber N}.
Local Open Scope py_scope.

Definition calc_violation_points (violations : N) : N :=
    violations * lit 0.01 + lit 0.005.

Definition calc_theft_score
      (vehicle_theft_rate_score location_risk_score anti_theft_feature_score : N) : N :=
    vehicle_theft_rate_score + location_risk_score - anti_theft_feature_score.

Definition calc_repair_score
      (brand_type_score repair_complex_score parts_score vehicle_age : N) : N :=
    brand_type_score + repair_complex_score + parts_score + (vehicle_age / lit 2).

Definition calc_saftey_score
      (crash_test_ratings active_saftey_features passive_saftey_features : N) : N :=
    crash_test_ratings + active_saftey_features * lit 2 + passive_saftey_features.

Definition calc_accident_points
      (at_fault_major at_fault_minor no_fault hit_n_runs duis : N) : N :=
    (at_fault_major * lit 3) + (at_fault_minor * lit 1.5) + (no_fault * lit 0.5)
    + (hit_n_runs * lit 4) + (duis * lit 5).

Definition calc_crime_score (crime_level_factor anti_theft_adjuestment : N) : N :=
    crime_level_factor - anti_theft_adjuestment.

Definition calc_base_rate : N := lit 320.

Definition calc_driver_risk (accident_points violation_points years_clean age : N) : N :=
    let age_adjustment :=
      if age <? lit 25 then lit 0.15
      else if age <? lit 65 then lit 0.0
      else lit 0.10 in
    let years_clean_points := - (years_clean * lit 0.01) in
    lit 1 + (lit 0.02 * accident_points) + (lit 0.015 * violation_points)
    - (lit 0.01 * years_clean_points) + age_adjustment.

Definition calc_vehicle_risk (repair_score theft_score saftey_score : N) : N :=
    lit 1 + (repair_score + theft_score - saftey_score) / lit 100.

Definition calc_location_risk (accident_points crime_Score : N) : N :=
    lit 1 + (lit 0.02 * accident_points) + (lit 0.025 * crime_Score).

End Formulas.

(* ===================================================================== *)
(** ** Static tables ([weights/policy_weights.py], [weights/discount_weights.py]) *)
(* ===================================================================== *)

(** A dict display [{k1: v1, k2: v2, ...}]: the items are inserted from left
    to right, a later item replacing an earlier one with the same key. *)
Definition dict_display {V : Type} (items : list (string * V)) : gmap string V :=
  foldl (fun d kv => <[kv.1 := kv.2]> d) ∅ items.

(** [d.get(key, None)].  The key of a lookup may be [None] (the default
    coverage type of [PolicyInputs]), which no table holds. *)
Definition dict_get {V : Type} (d : gmap string V) (key : option string) : option V :=
  match key with
  | Some k => d !! k
  | None => None
  end.

Module CoverageType.
Definition LIABILITY : string := "liability".
Definition FULL_COVERAGE : string := "full_coverage".
Definition COLLISION_ONLY : string := "collision_only".
End CoverageType.

Module AddOnKeys.
Definition ROADSIDE_ASSISTANCE : string := "roadside_assistance".
Definition RENTAL_REIMBURSEMENT : string := "rental_reimbursement".
Definition GLASS_COVERAGE : string := "glass_coverage".
Definition GAP_COVERAGE : string := "gap_coverage".
End AddOnKeys.

Module AddOnWeights.
Section Weights.
Context {N : Type} `{PyNumber N}.
Definition ROADSIDE_ASSISTANCE : N := lit 0.15.
Definition RENTAL_REIMBURSEMENT : N := lit 0.1.
Definition GLASS_COVERAGE : N := lit 0.05.
Definition GAP_COVERAGE : N := lit 0.05.
End Weights.
End AddOnWeights.

(** An entry of the policy table: [{"weight": w, "add_ons": {...}}]. *)
Module PolicyObj.
Record t (N : Type) := mk { weight : N; add_ons : gmap string N }.
Arguments mk {N}.
Arguments weight {N}.
Arguments add_ons {N}.
End PolicyObj.

Module PolicyAddOnMap.
Section Table.
Context {N : Type} `{PyNumber N}.

Definition POLICY_ADD_ON_ITEMS : list (string * PolicyObj.t N) :=
      [ (CoverageType.LIABILITY,
         PolicyObj.mk (lit 1.0) (dict_display
           [ (AddOnKeys.ROADSIDE_ASSISTANCE, AddOnWeights.ROADSIDE_ASSISTANCE);
             (AddOnKeys.RENTAL_REIMBURSEMENT, AddOnWeights.RENTAL_REIMBURSEMENT);
             (AddOnKeys.GLASS_COVERAGE, AddOnWeights.GLASS_COVERAGE) ]));
        (CoverageType.FULL_COVERAGE,
         PolicyObj.mk (lit 1.5) (dict_display
           [ (AddOnKeys.ROADSIDE_ASSISTANCE, AddOnWeights.ROADSIDE_ASSISTANCE);
             (AddOnKeys.RENTAL_REIMBURSEMENT, AddOnWeights.RENTAL_REIMBURSEMENT);
             (AddOnKeys.GAP_COVERAGE, AddOnWeights.GAP_COVERAGE);
             (AddOnKeys.GLASS_COVERAGE, AddOnWeights.GLASS_COVERAGE) ]));
        (CoverageType.COLLISION_ONLY,
         PolicyObj.mk (lit 1.2) (dict_display
           [ (AddOnKeys.RENTAL_REIMBURSEMENT, AddOnWeights.RENTAL_REIMBURSEMENT);
             (AddOnKeys.GLASS_COVERAGE, AddOnWeights.GLASS_COVERAGE) ])) ].

Definition POLICY_ADD_ON_MAP : gmap string (PolicyObj.t N) :=
      dict_display POLICY_ADD_ON_ITEMS.
End Table.
End PolicyAddOnMap.

Module DiscountKeys.
Definition MULTI_POLICY : string := "multi_policy".
Definition SAFE_DRIVER : string := "safe_driver".
Definition LOW_MILEAGE : string := "low_mileage".
Definition ANTI_THEFT : string := "anti_theft".
End DiscountKeys.

Module DiscountWeights.
Section Weights.
Context {N : Type} `{PyNumber N}.
Definition MULTI_POLICY : N := lit 0.1.
Definition SAFE_DRIVER : N := lit 0.12.
Definition LOW_MILEAGE : N := lit 0.05.
Definition ANTI_THEFT : N := lit 0.03.
End Weights.
End DiscountWeights.

Module PolicyDiscountMap.
Section Table.
Context {N : Type} `{PyNumber N}.

Definition POLICY_DISCOUNT_ITEMS : list (string * gmap string N) :=
      [ (CoverageType.LIABILITY, dict_display
           [ (DiscountKeys.MULTI_POLICY, DiscountWeights.MULTI_POLICY);
             (DiscountKeys.LOW_MILEAGE, DiscountWeights.LOW_MILEAGE) ]);
        (CoverageType.FULL_COVERAGE, dict_display
           [ (DiscountKeys.MULTI_POLICY, DiscountWeights.MULTI_POLICY);
             (DiscountKeys.SAFE_DRIVER, DiscountWeights.SAFE_DRIVER);
             (DiscountKeys.ANTI_THEFT, DiscountWeights.ANTI_THEFT) ]);
        (CoverageType.COLLISION_ONLY, dict_display
           [ (DiscountKeys.SAFE_DRIVER, DiscountWeights.SAFE_DRIVER);
             (DiscountKeys.LOW_MILEAGE, DiscountWeights.LOW_MILEAGE) ]) ].

Definition POLICY_DISCOUNT_MAP : gmap string (gmap string N) :=
      dict_display POLICY_DISCOUNT_ITEMS.
End Table.
End PolicyDiscountMap.

(* ===================================================================== *)
(** ** Input records ([inputs/quote_inputs.py]) *)
(* ===================================================================== *)

Module DriverInputs.
Record t (N : Type) := mk {
    at_fault_major : N; at_fault_minor : N; no_fault : N; hit_n_runs : N;
    duis : N; age : N; years_clean : N; violations : N }.
Arguments mk {N}.
Arguments at_fault_major {N}. Arguments at_fault_minor {N}.
Arguments no_fault {N}. Arguments hit_n_runs {N}. Arguments duis {N}.
Arguments age {N}. Arguments years_clean {N}. Arguments violations {N}.
End DriverInputs.

Module VehicleInputs.
Record t (N : Type) := mk {
    brand_type_score : N; repair_complexity_score : N; parts_score : N;
    vehicle_age : N; theft_score : N; anti_theft_feature_score : N;
    crash_test_rating : N; active_safety_features : N;
    passive_safety_features : N }.
Arguments mk {N}.
Arguments brand_type_score {N}. Arguments repair_complexity_score {N}.
Arguments parts_score {N}. Arguments vehicle_age {N}.
Arguments theft_score {N}. Arguments anti_theft_feature_score {N}.
Arguments crash_test_rating {N}. Arguments active_safety_features {N}.
Arguments passive_safety_features {N}.
End VehicleInputs.

Module LocationInputs.
Record t (N : Type) := mk { crime_level_factor : N; anti_theft_adjustment : N }.
Arguments mk {N}.
Arguments crime_level_factor {N}. Arguments anti_theft_adjustment {N}.
End LocationInputs.

(** [PolicyInputs(coverage_type: str = None, add_ons: List[str] = None)]:
    both attributes may hold [None]. *)
Module PolicyInputs.
Record t := mk { coverage_type : option string; add_ons : option (list string) }.
End PolicyInputs.

Module DiscountsInputs.
Record t := mk { discounts : option (list string) }.

Definition get_discounts (multi_policy safe_driver low_mileage anti_theft : bool)
    : list string :=
    let discounts := [] in
    let discounts :=
      if multi_policy then discounts ++ [DiscountKeys.MULTI_POLICY] else discounts in
    let discounts :=
      if safe_driver then discounts ++ [DiscountKeys.SAFE_DRIVER] else discounts in
    let discounts :=
      if low_mileage then discounts ++ [DiscountKeys.LOW_MILEAGE] else discounts in
    let discounts :=
      if anti_theft then discounts ++ [DiscountKeys.ANTI_THEFT] else discounts in
    discounts.
End DiscountsInputs.

Module QuoteInputs.
Record t (N : Type) := mk {
    driver_inputs : DriverInputs.t N;
    vehicle_inputs : VehicleInputs.t N;
    location_inputs : LocationInputs.t N;
    policy_inputs : PolicyInputs.t;
    discount_inputs : DiscountsInputs.t }.
Arguments mk {N}.
Arguments driver_inputs {N}. Arguments vehicle_inputs {N}.
Arguments location_inputs {N}. Arguments policy_inputs {N}.
Arguments discount_inputs {N}.
End QuoteInputs.

(* ===================================================================== *)
(** ** Effects: the logger and exceptions *)
(* ===================================================================== *)

Inductive Level := INFO | WARNING | ERROR.

(** A record handed to [LOGGER]: its level, its message, and the numbers an
    f-string interpolates into it (kept as values, not as text). *)
Record LogRecord (N : Type) := mkLog {
  levelname : Level;
  message : string;
  values : list N }.
Arguments mkLog {N}.
Arguments levelname {N}.
Arguments message {N}.
Arguments values {N}.

Inductive PyExn :=
| TypeError (what : string)
| KeyError (key : string).

Inductive Outcome (A : Type) :=
| Returned (a : A)
| Raised (e : PyExn).
Arguments Returned {A}.
Arguments Raised {A}.

(** A computation: from the log so far to an outcome and the log after. *)
Definition Py (N A : Type) : Type := list (LogRecord N) -> Outcome A * list (LogRecord N).

Section Effects.
Context {N : Type}.

Definition ret {A : Type} (a : A) : Py N A := fun log => (Returned a, log).

Definition raise {A : Type} (e : PyExn) : Py N A := fun log => (Raised e, log).

(** Sequencing: a raised exception skips the rest, the log is kept. *)
Definition bind {A B : Type} (k : A -> Py N B) (m : Py N A) : Py N B :=
  fun log =>
    match m log with
    | (Returned a, log') => k a log'
    | (Raised e, log') => (Raised e, log')
    end.

#[global] Instance Py_ret : MRet (Py N) := @ret.
#[global] Instance Py_bind : MBind (Py N) := @bind.

(** [LOGGER.info], [LOGGER.warning], [LOGGER.error]. *)
Definition emit (lvl : Level) (msg : string) (vals : list N) : Py N unit :=
  fun log => (Returned tt, log ++ [mkLog lvl msg vals]).

Definition LOGGER_info := emit INFO.
Definition LOGGER_warning (msg : string) := emit WARNING msg [].
Definition LOGGER_error (msg : string) := emit ERROR msg [].

End Effects.


(* ===================================================================== *)
(** ** The default-value audit ([default_checker.py]) *)
(* ===================================================================== *)

(** The attribute values [check_defaults] tells apart. *)
Inductive PyValue (N : Type) :=
| VNum (n : N)
| VStr (s : string)
| VList (l : list string)
| VNone.
Arguments VNum {N}.
Arguments VStr {N}.
Arguments VList {N}.
Arguments VNone {N}.

(** [str.isspace] on one ASCII character. *)
Definition isspace (c : Ascii.ascii) : bool :=
  let n := Ascii.nat_of_ascii c in
  ((9 <=? n)%nat && (n <=? 13)%nat) || ((28 <=? n)%nat && (n <=? 32)%nat).

Fixpoint lstrip (s : string) : string :=
  match s with
  | EmptyString => EmptyString
  | String c rest => if isspace c then lstrip rest else s
  end.

Fixpoint rstrip (s : string) : string :=
  match s with
  | EmptyString => EmptyString
  | String c rest =>
      match rstrip rest with
      | EmptyString => if isspace c then EmptyString else String c EmptyString
      | r => String c r
      end
  end.

Definition strip (s : string) : string := rstrip (lstrip s).

Definition is_empty_string (s : string) : bool :=
  match s with EmptyString => true | _ => false end.

Section DefaultChecker.
Context {N : Type} `{PyNumber N}.
Local Open Scope py_scope.

(** [vars(obj)] of each input class, in the order [__init__] assigns. *)
Definition vars_DriverInputs (o : DriverInputs.t N) : list (string * PyValue N) :=
  [ ("at_fault_major", VNum (DriverInputs.at_fault_major o));
    ("at_fault_minor", VNum (DriverInputs.at_fault_minor o));
    ("no_fault", VNum (DriverInputs.no_fault o));
    ("hit_n_runs", VNum (DriverInputs.hit_n_runs o));
    ("duis", VNum (DriverInputs.duis o));
    ("age", VNum (DriverInputs.age o));
    ("years_clean", VNum (DriverInputs.years_clean o));
    ("violations", VNum (DriverInputs.violations o)) ].

Definition vars_VehicleInputs (o : VehicleInputs.t N) : list (string * PyValue N) :=
  [ ("brand_type_score", VNum (VehicleInputs.brand_type_score o));
    ("repair_complexity_score", VNum (VehicleInputs.repair_complexity_score o));
    ("parts_score", VNum (VehicleInputs.parts_score o));
    ("vehicle_age", VNum (VehicleInputs.vehicle_age o));
    ("theft_score", VNum (VehicleInputs.theft_score o));
    ("anti_theft_feature_score", VNum (VehicleInputs.anti_theft_feature_score o));
    ("crash_test_rating", VNum (VehicleInputs.crash_test_rating o));
    ("active_safety_features", VNum (VehicleInputs.active_safety_features o));
    ("passive_safety_features", VNum (VehicleInputs.passive_safety_features o)) ].

Definition vars_LocationInputs (o : LocationInputs.t N) : list (string * PyValue N) :=
  [ ("crime_level_factor", VNum (LocationInputs.crime_level_factor o));
    ("anti_theft_adjustment", VNum (LocationInputs.anti_theft_adjustment o)) ].

Definition vars_PolicyInputs (o : PolicyInputs.t) : list (string * PyValue N) :=
  [ ("coverage_type",
     match PolicyInputs.coverage_type o with Some s => VStr s | None => VNone end);
    ("add_ons",
     match PolicyInputs.add_ons o with Some l => VList l | None => VNone end) ].

(** The body of the loop over [vars(obj).items()], for one attribute.  The
    numeric attributes are the [int] fields of the input classes. *)
Definition check_attr (path : string) (attr : string) (value : PyValue N) : Py N unit :=
  let full_path :=
    if is_empty_string path then attr else (path ++ "." ++ attr)%string in
  match value with
  | VNum n =>
      if n =? lit (-1)
      then LOGGER_warning ("Warning: " ++ full_path ++ " is using default value -1")
      else ret tt
  | VStr s =>
      if is_empty_string (strip s)
      then LOGGER_warning ("Warning: " ++ full_path ++ " is not set")
      else ret tt
  | VList l =>
      if (length l =? 0)%nat
      then LOGGER_warning ("Warning: " ++ full_path ++ " list is empty or not set")
      else ret tt
  | VNone => LOGGER_warning ("Warning: " ++ full_path ++ " is None")
  end.

Fixpoint check_attrs (path : string) (items : list (string * PyValue N)) : Py N unit :=
  match items with
  | [] => ret tt
  | (attr, value) :: rest => check_attr path attr value ;; check_attrs path rest
  end.

(** [check_defaults(obj, path, logger=LOGGER)]; [obj] is [None] or the
    attributes of an input object.  The caller always passes the logger. *)
Definition check_defaults (obj : option (list (string * PyValue N))) (path : string)
  : Py N unit :=
  match obj with
  | None => LOGGER_error "Cant check defaults for oobj because it is none"
  | Some items => check_attrs path items
  end.

End DefaultChecker.

(* ===================================================================== *)
(** ** Policy and discount resolvers ([insurance_quote.py]) *)
(* ===================================================================== *)

(** [str(policy_type)] inside an f-string. *)
Definition fmt_key (k : option string) : string :=
  match k with Some s => s | None => "None" end.

Section Resolvers.
Context {N : Type} `{PyNumber N}.
Local Open Scope py_scope.

(** The loop [for add_on in add_ons: adjustments += policy_obj["add_ons"][add_on]]
    of [calc_policy_adjustment]: the value of [adjustments] when the loop is
    left, and the [KeyError] that left it, if any. *)
Fixpoint add_ons_loop (policy_obj : PolicyObj.t N) (add_ons : list string)
    (adjustments : N) : N * option PyExn :=
  match add_ons with
  | [] => (adjustments, None)
  | add_on :: rest =>
      match PolicyObj.add_ons policy_obj !! add_on with
      | Some w => add_ons_loop policy_obj rest (adjustments + w)
      | None => (adjustments, Some (KeyError add_on))
      end
  end.

Definition calc_policy_adjustment (policy_type : option string)
    (add_ons : option (list string)) : Py N N :=
  let adjustments := lit 0 in
  let policy_obj := dict_get PolicyAddOnMap.POLICY_ADD_ON_MAP policy_type in
  match policy_obj with
  | None =>
      (* policy_obj["weight"] on None *)
      raise (TypeError "'NoneType' object is not subscriptable")
  | Some policy_obj =>
      let policy_weight := PolicyObj.weight policy_obj in
      if policy_weight =? lit (-1) then
        LOGGER_warning "Could not extract policy weight due to invalid key" ;;
        mret (lit (-1))
      else
        (* try: the loop; [adjustments] keeps what was added before an
           exception left it (iterating None raises at once) *)
        let '(adjustments, exc) :=
          match add_ons with
          | None => (adjustments, Some (TypeError "'NoneType' object is not iterable"))
          | Some add_ons => add_ons_loop policy_obj add_ons adjustments
          end in
        (* except Exception as e: the handler logs at level ERROR and the
           function goes on (the stray argument [e] of the call only makes
           the logging module report a formatting error; it raises nothing) *)
        match exc with
        | Some e => LOGGER_error "Failed to calculate policy adjustment"
        | None => mret tt
        end ;;
        mret (policy_weight + adjustments)
  end.

(** The loop of [calc_discounts]; it logs, and raises nothing on strings. *)
Fixpoint discounts_loop (policy_type : option string) (discount_obj : gmap string N)
    (discounts : list string) (discount_total : N) : Py N N :=
  match discounts with
  | [] => mret discount_total
  | discount :: rest =>
      match discount_obj !! discount with
      | Some discount_value =>
          discounts_loop policy_type discount_obj rest (discount_total + discount_value)
      | None =>
          LOGGER_warning ("Discount key '" ++ discount ++ "' not found for policy type '"
                          ++ fmt_key policy_type ++ "'") ;;
          discounts_loop policy_type discount_obj rest discount_total
      end
  end.

Definition calc_discounts (policy_type : option string)
    (discounts : option (list string)) : Py N N :=
  let discount_total := lit 0.0 in
  let discount_obj := dict_get PolicyDiscountMap.POLICY_DISCOUNT_MAP policy_type in
  match discount_obj with
  | None =>
      LOGGER_warning ("Invalid policy type '" ++ fmt_key policy_type
                      ++ "' for discount calculation.") ;;
      mret (lit 0.0)
  | Some discount_obj =>
      match discounts with
      | None =>
          (* iterating None raises TypeError, caught by the except clause *)
          LOGGER_error "Failed to calculate discounts: 'NoneType' object is not iterable" ;;
          mret discount_total
      | Some discounts =>
          discounts_loop policy_type discount_obj discounts discount_total
      end
  end.

End Resolvers.

(* ===================================================================== *)
(** ** The quote composer ([insurance_quote.py]) *)
(* ===================================================================== *)

Module Weights.
Record t (N : Type) := mk {
  driver_risk : N; vehicle_risk : N; location_risk : N;
  policy_adjustment : N; discount : N }.
Arguments mk {N}.
Arguments driver_risk {N}.
Arguments vehicle_risk {N}.
Arguments location_risk {N}.
Arguments policy_adjustment {N}.
Arguments discount {N}.
End Weights.

Module Scores.
Record t (N : Type) := mk { repair_score : N; theft_score : N; safety_score : N }.
Arguments mk {N}.
Arguments repair_score {N}.
Arguments theft_score {N}.
Arguments safety_score {N}.
End Scores.

(** The dict [calculate_quote] returns. *)
Module QuoteResult.
Record t (N : Type) := mk {
  base_rate : N;
  original_quote : N;
  total_discount : N;
  quote : N;
  weights : Weights.t N;
  scores : Scores.t N }.
Arguments mk {N}.
Arguments base_rate {N}.
Arguments original_quote {N}.
Arguments total_discount {N}.
Arguments quote {N}.
Arguments weights {N}.
Arguments scores {N}.
End QuoteResult.

Section Composer.
Context {N : Type} `{PyNumber N}.
Local Open Scope py_scope.

Definition calculate_quote (quote_inputs_ctx : QuoteInputs.t N) : Py N (QuoteResult.t N) :=
  let driver_inputs := QuoteInputs.driver_inputs quote_inputs_ctx in
  let vehicle_inputs := QuoteInputs.vehicle_inputs quote_inputs_ctx in
  let location_inputs := QuoteInputs.location_inputs quote_inputs_ctx in
  let policy_inputs := QuoteInputs.policy_inputs quote_inputs_ctx in
  let discounts_inputs := QuoteInputs.discount_inputs quote_inputs_ctx in
  check_defaults (Some (vars_DriverInputs driver_inputs)) "driver_inputs" ;;
  check_defaults (Some (vars_VehicleInputs vehicle_inputs)) "vehicle_inputs" ;;
  check_defaults (Some (vars_LocationInputs location_inputs)) "location_inputs" ;;
  check_defaults (Some (vars_PolicyInputs policy_inputs)) "policy_inputs" ;;
  let bp := calc_base_rate in
  let accident_points :=
    calc_accident_points
      (DriverInputs.at_fault_major driver_inputs)
      (DriverInputs.at_fault_minor driver_inputs)
      (DriverInputs.no_fault driver_inputs)
      (DriverInputs.hit_n_runs driver_inputs)
      (DriverInputs.duis driver_inputs) in
  let violation_points :=
    calc_violation_points (DriverInputs.violations driver_inputs) in
  let dr :=
    calc_driver_risk accident_points violation_points
      (DriverInputs.years_clean driver_inputs)
      (DriverInputs.age driver_inputs) in
  let crime_score :=
    calc_crime_score
      (LocationInputs.crime_level_factor location_inputs)
      (LocationInputs.anti_theft_adjustment location_inputs) in
  let lr := calc_location_risk accident_points crime_score in
  let repair_score :=
    calc_repair_score
      (VehicleInputs.brand_type_score vehicle_inputs)
      (VehicleInputs.repair_complexity_score vehicle_inputs)
      (VehicleInputs.parts_score vehicle_inputs)
      (VehicleInputs.vehicle_age vehicle_inputs) in
  let theft_score :=
    calc_theft_score
      (VehicleInputs.theft_score vehicle_inputs)
      lr
      (VehicleInputs.anti_theft_feature_score vehicle_inputs) in
  let safety_score :=
    calc_saftey_score
      (VehicleInputs.crash_test_rating vehicle_inputs)
      (VehicleInputs.active_safety_features vehicle_inputs)
      (VehicleInputs.passive_safety_features vehicle_inputs) in
  let vr := calc_vehicle_risk repair_score theft_score safety_score in
  policy_adjustment ←
    calc_policy_adjustment (PolicyInputs.coverage_type policy_inputs)
                           (PolicyInputs.add_ons policy_inputs) ;
  dd ← calc_discounts (PolicyInputs.coverage_type policy_inputs)
                      (DiscountsInputs.discounts discounts_inputs) ;
  LOGGER_info "bp: {bp}, dr: {dr}, vr: {vr}, lr: {lr}, pa: {policy_adjustment}, dd: {dd}"
              [bp; dr; vr; lr; policy_adjustment; dd] ;;
  let quote := bp * dr * vr * lr * policy_adjustment in
  let discounted_total := quote * dd in
  let adjusted_quote := quote - discounted_total in
  LOGGER_info "Quote: {adjusted_quote}, Discounted: {discounted_total}"
              [adjusted_quote; discounted_total] ;;
  mret {|
    QuoteResult.base_rate := bp;
    QuoteResult.original_quote := quote;
    QuoteResult.total_discount := discounted_total;
    QuoteResult.quote := adjusted_quote;
    QuoteResult.weights := {|
      Weights.driver_risk := dr;
      Weights.vehicle_risk := vr;
      Weights.location_risk := lr;
      Weights.policy_adjustment := policy_adjustment;
      Weights.discount := dd |};
    QuoteResult.scores := {|
      Scores.repair_score := repair_score;
      Scores.theft_score := theft_score;
      Scores.safety_score := safety_score |}
  |}.

End Composer.

(** The inputs of [run_test_quote] ([test.py]). *)
Section ReferenceInputs.
Context {N : Type} `{PyNumber N}.

Definition test_driver_inputs : DriverInputs.t N :=
  {| DriverInputs.at_fault_major := lit 1;
     DriverInputs.at_fault_minor := lit 1;
     DriverInputs.no_fault := lit 2;
     DriverInputs.hit_n_runs := lit 0;
     DriverInputs.duis := lit 0;
     DriverInputs.age := lit 23;
     DriverInputs.years_clean := lit 5;
     DriverInputs.violations := lit 1 |}.

Definition test_location_inputs : LocationInputs.t N :=
  {| LocationInputs.crime_level_factor := lit 4;
     LocationInputs.anti_theft_adjustment := lit 2 |}.

Definition test_vehicle_inputs : VehicleInputs.t N :=
  {| VehicleInputs.brand_type_score := lit 3;
     VehicleInputs.repair_complexity_score := lit 2;
     VehicleInputs.parts_score := lit 4;
     VehicleInputs.vehicle_age := lit 15;
     VehicleInputs.theft_score := lit 5;
     VehicleInputs.anti_theft_feature_score := lit 2;
     VehicleInputs.crash_test_rating := lit 4;
     VehicleInputs.active_safety_features := lit 2;
     VehicleInputs.passive_safety_features := lit 3 |}.

Definition test_policy_inputs : PolicyInputs.t :=
  {| PolicyInputs.coverage_type := Some CoverageType.FULL_COVERAGE;
     PolicyInputs.add_ons :=
       Some [AddOnKeys.ROADSIDE_ASSISTANCE; AddOnKeys.RENTAL_REIMBURSEMENT] |}.

Definition test_discounts_inputs : DiscountsInputs.t :=
  {| DiscountsInputs.discounts :=
       Some (DiscountsInputs.get_discounts true true false true) |}.

Definition test_quote_inputs : QuoteInputs.t N :=
  {| QuoteInputs.driver_inputs := test_driver_inputs;
     QuoteInputs.vehicle_inputs := test_vehicle_inputs;
     QuoteInputs.location_inputs := test_location_inputs;
     QuoteInputs.policy_inputs := test_policy_inputs;
     QuoteInputs.discount_inputs := test_discounts_inputs |}.

End ReferenceInputs.

(* ===================================================================== *)
(** ** Vocabulary of the properties *)
(* ===================================================================== *)

(** The age band of [calc_driver_risk], as the three cases of the
    specification. *)
Definition age_band (age adj : Q) : Prop :=
  ((age < 25)%Q -> adj = 0.15%Q)
  /\ ((25 <= age)%Q -> (age < 65)%Q -> adj = 0.0%Q)
  /\ ((65 <= age)%Q -> adj = 0.10%Q).

(** The coverage types of [CoverageType]. *)
Definition coverage_types : list string :=
  [CoverageType.LIABILITY; CoverageType.FULL_COVERAGE; CoverageType.COLLISION_ONLY].

(** Number of items of a dict display, or of a dict, under a given key. *)
Definition entries_for {V : Type} (key : string) (items : list (string * V)) : nat :=
  length (filter (fun kv => kv.1 = key) items).

(** The guard [policy_weight == -1] of [calc_policy_adjustment]. *)
Definition weight_is_sentinel {N : Type} `{PyNumber N} (policy_obj : PolicyObj.t N) : bool :=
  (PolicyObj.weight policy_obj =? lit (-1))%py.

Definition invalid_weight_warning : string :=
  "Could not extract policy weight due to invalid key".

(** [log_extending m]: the outcome of [m] does not depend on the log it
    starts from, and [m] only appends records to that log. *)
Definition log_extending {N A : Type} (m : Py N A) : Prop :=
  forall log, m log = (fst (m []), log ++ snd (m [])).

(** [QuoteInputs()] as its constructor builds it, but for the numbers of the
    reference request: [PolicyInputs()] has no coverage type and no add-ons. *)
Definition default_policy_quote_inputs {N : Type} `{PyNumber N} : QuoteInputs.t N :=
  {| QuoteInputs.driver_inputs := test_driver_inputs;
     QuoteInputs.vehicle_inputs := test_vehicle_inputs;
     QuoteInputs.location_inputs := test_location_inputs;
     QuoteInputs.policy_inputs :=
       {| PolicyInputs.coverage_type := None; PolicyInputs.add_ons := None |};
     QuoteInputs.discount_inputs := {| DiscountsInputs.discounts := None |} |}.

Definition not_subscriptable : PyExn :=
  TypeError "'NoneType' object is not subscriptable".

(** The records the two [except] clauses log. *)
Definition policy_adjustment_failed {N : Type} : LogRecord N :=
  mkLog ERROR "Failed to calculate policy adjustment" [].

Definition discounts_failed {N : Type} : LogRecord N :=
  mkLog ERROR "Failed to calculate discounts: 'NoneType' object is not iterable" [].

(** The fractions of the requested keys the sub-table knows, in order. *)
Definition recognized_fractions {N : Type} (discount_obj : gmap string N)
    (keys : list string) : list N :=
  omap (fun k => discount_obj !! k) keys.

(** The sum of a list of fractions: accumulated from the left out of 0.0 with
    the arithmetic at hand, and as a rational number. *)
Definition accumulate {N : Type} `{PyNumber N} (fractions : list N) : N :=
  foldl add (lit 0.0) fractions.

Definition Qsum (l : list Q) : Q := foldr Qplus 0%Q l.

(** One warning per requested key the sub-table lacks, in order. *)
Definition unknown_discount_warnings {N : Type} (policy_type : option string)
    (discount_obj : gmap string N) (keys : list string) : list (LogRecord N) :=
  omap (fun k =>
          match discount_obj !! k with
          | Some _ => None
          | None =>
              Some (mkLog WARNING
                      ("Discount key '" ++ k ++ "' not found for policy type '"
                       ++ fmt_key policy_type ++ "'") [])
          end) keys.

Section SpecComposer.
Context {N : Type} `{PyNumber N}.
Local Open Scope py_scope.

(** Steps 2 to 13 of the specification's [calculateQuote], given the two
    resolved factors. *)
Definition spec_quote (request : QuoteInputs.t N)
    (policyAdjustmentFactor discountFractionVal : N) : QuoteResult.t N :=
  let driver := QuoteInputs.driver_inputs request in
  let vehicle := QuoteInputs.vehicle_inputs request in
  let location := QuoteInputs.location_inputs request in
  let baseRate := lit 320 in
  let accidentPoints :=
    calc_accident_points (DriverInputs.at_fault_major driver)
      (DriverInputs.at_fault_minor driver) (DriverInputs.no_fault driver)
      (DriverInputs.hit_n_runs driver) (DriverInputs.duis driver) in
  let violationPoints := calc_violation_points (DriverInputs.violations driver) in
  let driverRiskFactor :=
    calc_driver_risk accidentPoints violationPoints
      (DriverInputs.years_clean driver) (DriverInputs.age driver) in
  let crimeScoreVal :=
    calc_crime_score (LocationInputs.crime_level_factor location)
      (LocationInputs.anti_theft_adjustment location) in
  let locationRiskFactor := calc_location_risk accidentPoints crimeScoreVal in
  let repairScoreVal :=
    calc_repair_score (VehicleInputs.brand_type_score vehicle)
      (VehicleInputs.repair_complexity_score vehicle)
      (VehicleInputs.parts_score vehicle) (VehicleInputs.vehicle_age vehicle) in
  let theftScoreVal :=
    calc_theft_score (VehicleInputs.theft_score vehicle) locationRiskFactor
      (VehicleInputs.anti_theft_feature_score vehicle) in
  let safetyScoreVal :=
    calc_saftey_score (VehicleInputs.crash_test_rating vehicle)
      (VehicleInputs.active_safety_features vehicle)
      (VehicleInputs.passive_safety_features vehicle) in
  let vehicleRiskFactor := calc_vehicle_risk repairScoreVal theftScoreVal safetyScoreVal in
  let grossQuote :=
    baseRate * driverRiskFactor * vehicleRiskFactor * locationRiskFactor
    * policyAdjustmentFactor in
  let discountAmount := grossQuote * discountFractionVal in
  let netQuote := grossQuote - discountAmount in
  QuoteResult.mk baseRate grossQuote discountAmount netQuote
    (Weights.mk driverRiskFactor vehicleRiskFactor locationRiskFactor
       policyAdjustmentFactor discountFractionVal)
    (Scores.mk repairScoreVal theftScoreVal safetyScoreVal).

(** The outcome [calculateQuote] has by the specification: the quote composed
    from the two resolved factors, or the exception of a resolver. *)
Definition spec_outcome (request : QuoteInputs.t N) : Outcome (QuoteResult.t N) :=
  let policy := QuoteInputs.policy_inputs request in
  let selection := QuoteInputs.discount_inputs request in
  match fst (calc_policy_adjustment (PolicyInputs.coverage_type policy)
               (PolicyInputs.add_ons policy) []) with
  | Raised e => Raised e
  | Returned policyAdjustmentFactor =>
      match fst (calc_discounts (PolicyInputs.coverage_type policy)
                   (DiscountsInputs.discounts selection) []) with
      | Raised e => Raised e
      | Returned discountFractionVal =>
          Returned (spec_quote request policyAdjustmentFactor discountFractionVal)
      end
  end.

End SpecComposer.

(* ===================================================================== *)
(** ** Default constructors and vocabulary of the further properties *)
(* ===================================================================== *)

Section DefaultConstructors.
Context {N : Type} `{PyNumber N}.

(** [DriverInputs()]: every count defaults to -1, but [years_clean] to 1. *)
Definition default_DriverInputs : DriverInputs.t N :=
  {| DriverInputs.at_fault_major := lit (-1);
     DriverInputs.at_fault_minor := lit (-1);
     DriverInputs.no_fault := lit (-1);
     DriverInputs.hit_n_runs := lit (-1);
     DriverInputs.duis := lit (-1);
     DriverInputs.age := lit (-1);
     DriverInputs.years_clean := lit 1;
     DriverInputs.violations := lit (-1) |}.

(** [VehicleInputs()]. *)
Definition default_VehicleInputs : VehicleInputs.t N :=
  {| VehicleInputs.brand_type_score := lit (-1);
     VehicleInputs.repair_complexity_score := lit (-1);
     VehicleInputs.parts_score := lit (-1);
     VehicleInputs.vehicle_age := lit (-1);
     VehicleInputs.theft_score := lit (-1);
     VehicleInputs.anti_theft_feature_score := lit (-1);
     VehicleInputs.crash_test_rating := lit (-1);
     VehicleInputs.active_safety_features := lit (-1);
     VehicleInputs.passive_safety_features := lit (-1) |}.

(** [LocationInputs()]. *)
Definition default_LocationInputs : LocationInputs.t N :=
  {| LocationInputs.crime_level_factor := lit (-1);
     LocationInputs.anti_theft_adjustment := lit (-1) |}.

(** [PolicyInputs()] and [DiscountsInputs()]. *)
Definition default_PolicyInputs : PolicyInputs.t :=
  {| PolicyInputs.coverage_type := None; PolicyInputs.add_ons := None |}.

Definition default_DiscountsInputs : DiscountsInputs.t :=
  {| DiscountsInputs.discounts := None |}.

(** [QuoteInputs()]. *)
Definition default_QuoteInputs : QuoteInputs.t N :=
  {| QuoteInputs.driver_inputs := default_DriverInputs;
     QuoteInputs.vehicle_inputs := default_VehicleInputs;
     QuoteInputs.location_inputs := default_LocationInputs;
     QuoteInputs.policy_inputs := default_PolicyInputs;
     QuoteInputs.discount_inputs := default_DiscountsInputs |}.

(** The attribute values [check_defaults] reports: the integer -1, a string
    of white space only, an empty list, [None]. *)
Definition is_default (value : PyValue N) : bool :=
  match value with
  | VNum n => (n =? lit (-1))%py
  | VStr s => forallb isspace (list_ascii_of_string s)
  | VList l => match l with [] => true | _ :: _ => false end
  | VNone => true
  end.

(** The warning [check_defaults] words for an attribute of each kind. *)
Definition default_warning (path attr : string) (value : PyValue N) : LogRecord N :=
  let full_path :=
    if is_empty_string path then attr else (path ++ "." ++ attr)%string in
  mkLog WARNING
    ("Warning: " ++ full_path ++
     match value with
     | VNum _ => " is using default value -1"
     | VStr _ => " is not set"
     | VList _ => " list is empty or not set"
     | VNone => " is None"
     end) [].

(** The warnings for the attributes at a default, in attribute order. *)
Definition audit_warnings (path : string) (items : list (string * PyValue N))
  : list (LogRecord N) :=
  omap (fun item =>
          if is_default item.2 then Some (default_warning path item.1 item.2)
          else None) items.

End DefaultConstructors.

(** The request with its [policy_inputs] attribute replaced, as [test.py]
    assigns the attributes of a [QuoteInputs] object. *)
Definition with_policy {N : Type} (quote_inputs : QuoteInputs.t N)
    (policy_inputs : PolicyInputs.t) : QuoteInputs.t N :=
  {| QuoteInputs.driver_inputs := QuoteInputs.driver_inputs quote_inputs;
     QuoteInputs.vehicle_inputs := QuoteInputs.vehicle_inputs quote_inputs;
     QuoteInputs.location_inputs := QuoteInputs.location_inputs quote_inputs;
     QuoteInputs.policy_inputs := policy_inputs;
     QuoteInputs.discount_inputs := QuoteInputs.discount_inputs quote_inputs |}.

(** An add-on key the sub-table of a policy entry holds. *)
Definition known_add_on {N : Type} (policy_obj : PolicyObj.t N) (key : string) : Prop :=
  is_Some (PolicyObj.add_ons policy_obj !! key).

(** The discount keys in the order [get_discounts] appends them. *)
Definition discount_keys_in_order : list string :=
  [DiscountKeys.MULTI_POLICY; DiscountKeys.SAFE_DRIVER;
   DiscountKeys.LOW_MILEAGE; DiscountKeys.ANTI_THEFT].


(* ===================================================================== *)
(** * Properties *)
(* ===================================================================== *)

(** Unfolds the arithmetic interface at the exact instance, leaving [Q]
    operations for [lra] and [ring]. *)
Ltac exact_arith :=
  cbn [lit add sub mul truediv neg lt eq Q_number] in *.

(** ** Accident points *)

Lemma calc_accident_points_exact (a b c d e : Q) :
  (calc_accident_points a b c d e == 3 * a + 1.5 * b + 0.5 * c + 4 * d + 5 * e)%Q.
Proof. unfold calc_accident_points. exact_arith. ring. Qed.

(** C8: for non-negative inputs [calc_accident_points] is non-negative, and
    raising any one argument while the others are fixed never lowers it. *)
Theorem calc_accident_points_nonneg_monotone
    (at_fault_major at_fault_minor no_fault hit_n_runs duis : Q) :
  (0 <= at_fault_major)%Q -> (0 <= at_fault_minor)%Q -> (0 <= no_fault)%Q ->
  (0 <= hit_n_runs)%Q -> (0 <= duis)%Q ->
  (0 <= calc_accident_points at_fault_major at_fault_minor no_fault hit_n_runs duis)%Q
  /\ (forall x, (at_fault_major <= x)%Q ->
        (calc_accident_points at_fault_major at_fault_minor no_fault hit_n_runs duis
         <= calc_accident_points x at_fault_minor no_fault hit_n_runs duis)%Q)
  /\ (forall x, (at_fault_minor <= x)%Q ->
        (calc_accident_points at_fault_major at_fault_minor no_fault hit_n_runs duis
         <= calc_accident_points at_fault_major x no_fault hit_n_runs duis)%Q)
  /\ (forall x, (no_fault <= x)%Q ->
        (calc_accident_points at_fault_major at_fault_minor no_fault hit_n_runs duis
         <= calc_accident_points at_fault_major at_fault_minor x hit_n_runs duis)%Q)
  /\ (forall x, (hit_n_runs <= x)%Q ->
        (calc_accident_points at_fault_major at_fault_minor no_fault hit_n_runs duis
         <= calc_accident_points at_fault_major at_fault_minor no_fault x duis)%Q)
  /\ (forall x, (duis <= x)%Q ->
        (calc_accident_points at_fault_major at_fault_minor no_fault hit_n_runs duis
         <= calc_accident_points at_fault_major at_fault_minor no_fault hit_n_runs x)%Q).
Proof.
  intros Ha Hb Hc Hd He.
  repeat split; intros; rewrite !calc_accident_points_exact; lra.
Qed.

Lemma calc_accident_points_nonneg_monotone_witness :
  (0 <= calc_accident_points (N:=Q) 1 1 2 0 0)%Q
  /\ (calc_accident_points (N:=Q) 1 1 2 0 0 <= calc_accident_points (N:=Q) 1 1 2 0 3)%Q.
Proof.
  assert (Hz : (0 <= 0)%Q) by (vm_compute; discriminate).
  assert (H1 : (0 <= 1)%Q) by (vm_compute; discriminate).
  assert (H2 : (0 <= 2)%Q) by (vm_compute; discriminate).
  assert (H3 : (0 <= 3)%Q) by (vm_compute; discriminate).
  destruct (calc_accident_points_nonneg_monotone 1 1 2 0 0 H1 H1 H2 Hz Hz)
    as (Hpos & _ & _ & _ & _ & Hduis).
  split; [exact Hpos | exact (Hduis 3%Q H3)].
Defined.

(** ** Driver risk *)

Lemma Qlt_py_true (x y : Q) : negb (Qle_bool y x) = true <-> (x < y)%Q.
Proof.
  rewrite negb_true_iff. split.
  - intros Hb. apply Qnot_le_lt. intros Hle.
    apply Qle_bool_iff in Hle. congruence.
  - intros Hlt. destruct (Qle_bool y x) eqn:E; [|reflexivity].
    apply Qle_bool_iff in E. lra.
Qed.

Lemma Qlt_py_false (x y : Q) : negb (Qle_bool y x) = false <-> (y <= x)%Q.
Proof.
  rewrite negb_false_iff. apply Qle_bool_iff.
Qed.

Lemma calc_driver_risk_unfold (accident_points violation_points years_clean age : Q) :
  exists adj : Q,
    age_band age adj
    /\ (calc_driver_risk accident_points violation_points years_clean age
        == 1 + 0.02 * accident_points + 0.015 * violation_points
           - 0.01 * (- (0.01) * years_clean) + adj)%Q.
Proof.
  unfold calc_driver_risk, age_band. exact_arith.
  destruct (negb (Qle_bool 25 age)) eqn:E25.
  - apply Qlt_py_true in E25. exists 0.15%Q. split; [|ring].
    repeat split; intros; try reflexivity; lra.
  - apply Qlt_py_false in E25.
    destruct (negb (Qle_bool 65 age)) eqn:E65.
    + apply Qlt_py_true in E65. exists 0.0%Q. split; [|ring].
      repeat split; intros; try reflexivity; lra.
    + apply Qlt_py_false in E65. exists 0.10%Q. split; [|ring].
      repeat split; intros; try reflexivity; lra.
Qed.

(** C4: [calc_driver_risk] is [1 + 0.02*accidentPoints + 0.015*violationPoints
    - 0.01*(-0.01*yearsClean) + ageAdjustment]; the years-clean term is
    doubly negated and contributes [+0.0001*yearsClean]; the adjustment is
    0.15 below 25, 0.0 on [25, 65) and 0.10 from 65 on, so 0.15 at 24, 0.0 at
    25 and at 64, 0.10 at 65 (also on binary64 values, with all points at
    zero). *)
Theorem calc_driver_risk_formula :
  (forall accident_points violation_points years_clean age : Q,
     exists adj : Q,
       age_band age adj
       /\ (calc_driver_risk accident_points violation_points years_clean age
           == 1 + 0.02 * accident_points + 0.015 * violation_points
              - 0.01 * (- (0.01) * years_clean) + adj)%Q
       /\ (calc_driver_risk accident_points violation_points years_clean age
           == 1 + 0.02 * accident_points + 0.015 * violation_points
              + 0.0001 * years_clean + adj)%Q)
  /\ (forall a v y : Q,
        (calc_driver_risk a v y 24
         == 1 + 0.02 * a + 0.015 * v - 0.01 * (- (0.01) * y) + 0.15)%Q
        /\ (calc_driver_risk a v y 25
            == 1 + 0.02 * a + 0.015 * v - 0.01 * (- (0.01) * y) + 0.0)%Q
        /\ (calc_driver_risk a v y 64
            == 1 + 0.02 * a + 0.015 * v - 0.01 * (- (0.01) * y) + 0.0)%Q
        /\ (calc_driver_risk a v y 65
            == 1 + 0.02 * a + 0.015 * v - 0.01 * (- (0.01) * y) + 0.10)%Q)
  /\ (calc_driver_risk (N:=float) (lit 0) (lit 0) (lit 0) (lit 24) = 1.15%float
      /\ calc_driver_risk (N:=float) (lit 0) (lit 0) (lit 0) (lit 25) = 1%float
      /\ calc_driver_risk (N:=float) (lit 0) (lit 0) (lit 0) (lit 64) = 1%float
      /\ calc_driver_risk (N:=float) (lit 0) (lit 0) (lit 0) (lit 65) = 1.1%float).
Proof.
  split; [|split].
  - intros ap vp yc age.
    destruct (calc_driver_risk_unfold ap vp yc age) as (adj & Hband & Heq).
    exists adj. split; [exact Hband|]. split; [exact Heq|].
    rewrite Heq. ring.
  - intros a v y. repeat split.
    + destruct (calc_driver_risk_unfold a v y 24) as (adj & (Hlo & _ & _) & ->).
      rewrite Hlo by (vm_compute; reflexivity). reflexivity.
    + destruct (calc_driver_risk_unfold a v y 25) as (adj & (_ & Hmid & _) & ->).
      rewrite Hmid by (vm_compute; congruence). reflexivity.
    + destruct (calc_driver_risk_unfold a v y 64) as (adj & (_ & Hmid & _) & ->).
      rewrite Hmid by (vm_compute; congruence). reflexivity.
    + destruct (calc_driver_risk_unfold a v y 65) as (adj & (_ & _ & Hhi) & ->).
      rewrite Hhi by (vm_compute; congruence). reflexivity.
  - repeat split; vm_compute; reflexivity.
Qed.

Lemma calc_driver_risk_formula_witness :
  exists adj : Q,
    adj = 0.15%Q
    /\ (calc_driver_risk (N:=Q) 5.5 0.015 5 23
        == 1 + 0.02 * 5.5 + 0.015 * 0.015 + 0.0001 * 5 + adj)%Q.
Proof.
  destruct (proj1 calc_driver_risk_formula 5.5 0.015 5 23)%Q
    as (adj & (Hlt & _ & _) & _ & Hpos).
  exists adj. split; [apply Hlt; vm_compute; reflexivity | exact Hpos].
Defined.

(** ** The static tables *)

Section TableFacts.
Context {N : Type} `{PyNumber N}.

(** The entries of the policy table, one by one. *)
Lemma POLICY_ADD_ON_MAP_lookup (policy_type : string) (policy_obj : PolicyObj.t N) :
  PolicyAddOnMap.POLICY_ADD_ON_MAP !! policy_type = Some policy_obj ->
  In (policy_type, policy_obj) PolicyAddOnMap.POLICY_ADD_ON_ITEMS.
Proof.
  unfold PolicyAddOnMap.POLICY_ADD_ON_MAP, PolicyAddOnMap.POLICY_ADD_ON_ITEMS, dict_display.
  cbn [foldl fst snd]. intros Hl.
  apply lookup_insert_Some in Hl as [[<- <-] | [_ Hl]]; [cbn; tauto|].
  apply lookup_insert_Some in Hl as [[<- <-] | [_ Hl]]; [cbn; tauto|].
  apply lookup_insert_Some in Hl as [[<- <-] | [_ Hl]]; [cbn; tauto|].
  rewrite lookup_empty in Hl. discriminate.
Qed.

Lemma POLICY_DISCOUNT_MAP_lookup (policy_type : string) (discount_obj : gmap string N) :
  PolicyDiscountMap.POLICY_DISCOUNT_MAP !! policy_type = Some discount_obj ->
  In (policy_type, discount_obj) PolicyDiscountMap.POLICY_DISCOUNT_ITEMS.
Proof.
  unfold PolicyDiscountMap.POLICY_DISCOUNT_MAP, PolicyDiscountMap.POLICY_DISCOUNT_ITEMS,
    dict_display.
  cbn [foldl fst snd]. intros Hl.
  apply lookup_insert_Some in Hl as [[<- <-] | [_ Hl]]; [cbn; tauto|].
  apply lookup_insert_Some in Hl as [[<- <-] | [_ Hl]]; [cbn; tauto|].
  apply lookup_insert_Some in Hl as [[<- <-] | [_ Hl]]; [cbn; tauto|].
  rewrite lookup_empty in Hl. discriminate.
Qed.

End TableFacts.

Lemma weight_not_sentinel_Q (policy_type : string) (policy_obj : PolicyObj.t Q) :
  PolicyAddOnMap.POLICY_ADD_ON_MAP !! policy_type = Some policy_obj ->
  weight_is_sentinel policy_obj = false.
Proof.
  intros Hl. apply POLICY_ADD_ON_MAP_lookup in Hl.
  cbn in Hl. destruct Hl as [Hl | [Hl | [Hl | []]]];
    inversion Hl; subst; reflexivity.
Qed.

Lemma weight_not_sentinel_float (policy_type : string) (policy_obj : PolicyObj.t float) :
  PolicyAddOnMap.POLICY_ADD_ON_MAP !! policy_type = Some policy_obj ->
  weight_is_sentinel policy_obj = false.
Proof.
  intros Hl. apply POLICY_ADD_ON_MAP_lookup in Hl.
  cbn in Hl. destruct Hl as [Hl | [Hl | [Hl | []]]];
    inversion Hl; subst; vm_compute; reflexivity.
Qed.

(** ** Computations only extend the log *)

Section LogExtending.
Context {N : Type} `{PyNumber N}.

Lemma log_extending_ret {A : Type} (a : A) : log_extending (N:=N) (mret a).
Proof. intros log. cbn. rewrite app_nil_r. reflexivity. Qed.

Lemma log_extending_raise {A : Type} (e : PyExn) : log_extending (N:=N) (raise (A:=A) e).
Proof. intros log. cbn. rewrite app_nil_r. reflexivity. Qed.

Lemma log_extending_emit (lvl : Level) (msg : string) (vals : list N) :
  log_extending (emit lvl msg vals).
Proof. intros log. reflexivity. Qed.

Lemma log_extending_bind {A B : Type} (m : Py N A) (k : A -> Py N B) :
  log_extending m -> (forall a, log_extending (k a)) -> log_extending (m ≫= k).
Proof.
  intros Hm Hk log. cbv [mbind Py_bind bind].
  rewrite (Hm log). destruct (m []) as [[a|e] w]; cbn [fst snd].
  - rewrite (Hk a (log ++ w)), (Hk a w). cbn [fst snd].
    rewrite app_assoc. reflexivity.
  - reflexivity.
Qed.

Lemma log_extending_check_attr (path attr : string) (value : PyValue N) :
  log_extending (check_attr path attr value).
Proof.
  unfold check_attr, LOGGER_warning.
  destruct value; repeat case_match;
    first [apply log_extending_emit | apply (log_extending_ret tt)].
Qed.

Lemma log_extending_check_attrs (path : string) (items : list (string * PyValue N)) :
  log_extending (check_attrs path items).
Proof.
  induction items as [|[attr value] rest IH]; cbn [check_attrs].
  - apply (log_extending_ret tt).
  - apply log_extending_bind; [apply log_extending_check_attr | intros _; exact IH].
Qed.

Lemma log_extending_check_defaults (obj : option (list (string * PyValue N)))
    (path : string) :
  log_extending (check_defaults obj path).
Proof.
  destruct obj; cbn [check_defaults].
  - apply log_extending_check_attrs.
  - apply log_extending_emit.
Qed.

Lemma log_extending_calc_policy_adjustment (policy_type : option string)
    (add_ons : option (list string)) :
  log_extending (calc_policy_adjustment policy_type add_ons).
Proof.
  unfold calc_policy_adjustment.
  destruct (dict_get _ policy_type) as [policy_obj|]; [|apply log_extending_raise].
  case_match.
  - apply log_extending_bind; [apply log_extending_emit|].
    intros _. apply log_extending_ret.
  - destruct (match add_ons with Some l => _ | None => _ end) as [adjustments exc].
    apply log_extending_bind; [|intros _; apply log_extending_ret].
    destruct exc; [apply log_extending_emit | apply (log_extending_ret tt)].
Qed.

Lemma log_extending_discounts_loop (policy_type : option string)
    (discount_obj : gmap string N) (discounts : list string) (discount_total : N) :
  log_extending (discounts_loop policy_type discount_obj discounts discount_total).
Proof.
  revert discount_total.
  induction discounts as [|discount rest IH]; intros discount_total; cbn [discounts_loop].
  - apply log_extending_ret.
  - destruct (discount_obj !! discount).
    + apply IH.
    + apply log_extending_bind; [apply log_extending_emit | intros _; apply IH].
Qed.

Lemma log_extending_calc_discounts (policy_type : option string)
    (discounts : option (list string)) :
  log_extending (calc_discounts policy_type discounts).
Proof.
  unfold calc_discounts.
  destruct (dict_get _ policy_type) as [discount_obj|].
  - destruct discounts as [discounts|].
    + apply log_extending_discounts_loop.
    + apply log_extending_bind; [apply log_extending_emit|].
      intros _. apply log_extending_ret.
  - apply log_extending_bind; [apply log_extending_emit|].
    intros _. apply log_extending_ret.
Qed.

Lemma log_extending_calculate_quote (quote_inputs_ctx : QuoteInputs.t N) :
  log_extending (calculate_quote quote_inputs_ctx).
Proof.
  unfold calculate_quote. cbv zeta.
  repeat (apply log_extending_bind;
          [first [ apply log_extending_check_defaults
                 | apply log_extending_calc_policy_adjustment
                 | apply log_extending_calc_discounts
                 | apply log_extending_emit ]
          | intros ?]).
  apply log_extending_ret.
Qed.

End LogExtending.

(** Evaluates a computation by running it from the empty log. *)
Ltac run_from_empty_log lem :=
  rewrite lem;
  match goal with
  | |- context [fst (?m [])] =>
      let r := eval vm_compute in (m []) in
      replace (m []) with r by (vm_compute; reflexivity)
  end;
  cbn [fst snd]; rewrite ?app_nil_r.

(** ** Running the resolvers *)

Section ResolverFacts.
Context {N : Type} `{PyNumber N}.

(** What [calc_policy_adjustment] does past the sentinel guard: the loop
    runs, an exception that left it is logged, and the sum is returned. *)
Lemma calc_policy_adjustment_present (policy_type : string) (policy_obj : PolicyObj.t N)
    (add_ons : option (list string)) (log : list (LogRecord N)) :
  PolicyAddOnMap.POLICY_ADD_ON_MAP !! policy_type = Some policy_obj ->
  weight_is_sentinel policy_obj = false ->
  calc_policy_adjustment (Some policy_type) add_ons log =
    let '(adjustments, exc) :=
      match add_ons with
      | None => (lit 0, Some (TypeError "'NoneType' object is not iterable"))
      | Some add_ons => add_ons_loop policy_obj add_ons (lit 0)
      end in
    (Returned (PolicyObj.weight policy_obj + adjustments)%py,
     log ++ match exc with
            | Some _ => [mkLog ERROR "Failed to calculate policy adjustment" []]
            | None => []
            end).
Proof.
  intros Hl Hw. unfold calc_policy_adjustment, dict_get. rewrite Hl.
  unfold weight_is_sentinel in Hw. rewrite Hw.
  destruct (match add_ons with
            | Some l => add_ons_loop policy_obj l (lit 0)
            | None => _
            end) as [adjustments [e|]];
    cbv [mbind Py_bind bind mret Py_ret ret LOGGER_error emit];
    [reflexivity | rewrite app_nil_r; reflexivity].
Qed.

(** An absent coverage type: subscripting [None] raises. *)
Lemma calc_policy_adjustment_absent (policy_type : option string)
    (add_ons : option (list string)) (log : list (LogRecord N)) :
  dict_get PolicyAddOnMap.POLICY_ADD_ON_MAP policy_type = None ->
  calc_policy_adjustment policy_type add_ons log
  = (Raised (TypeError "'NoneType' object is not subscriptable"), log).
Proof.
  intros Hl. unfold calc_policy_adjustment. rewrite Hl. reflexivity.
Qed.

(** The loop over add-ons stops at the first key the sub-table lacks; the
    keys after it are not looked at. *)
Lemma add_ons_loop_stops (policy_obj : PolicyObj.t N) (known : list string)
    (unknown : string) (rest : list string) (adjustments : N) :
  Forall (fun k => is_Some (PolicyObj.add_ons policy_obj !! k)) known ->
  PolicyObj.add_ons policy_obj !! unknown = None ->
  add_ons_loop policy_obj (known ++ unknown :: rest) adjustments
  = (fst (add_ons_loop policy_obj known adjustments), Some (KeyError unknown)).
Proof.
  intros Hknown Hun. revert adjustments.
  induction Hknown as [|k known [w Hk] _ IH]; intros adjustments; cbn.
  - rewrite Hun. reflexivity.
  - rewrite Hk. apply IH.
Qed.

(** Hence the result ignores every add-on from the first unknown key on. *)
Lemma calc_policy_adjustment_ignores_rest (policy_type : string)
    (policy_obj : PolicyObj.t N) (known : list string) (unknown : string)
    (rest : list string) (log : list (LogRecord N)) :
  PolicyAddOnMap.POLICY_ADD_ON_MAP !! policy_type = Some policy_obj ->
  weight_is_sentinel policy_obj = false ->
  Forall (fun k => is_Some (PolicyObj.add_ons policy_obj !! k)) known ->
  PolicyObj.add_ons policy_obj !! unknown = None ->
  fst (calc_policy_adjustment (Some policy_type) (Some (known ++ unknown :: rest)) log)
  = fst (calc_policy_adjustment (Some policy_type) (Some known) log).
Proof.
  intros Hl Hw Hknown Hun.
  rewrite !(calc_policy_adjustment_present _ _ _ _ Hl Hw).
  rewrite (add_ons_loop_stops _ _ _ _ _ Hknown Hun).
  destruct (add_ons_loop policy_obj known (lit 0)) as [adjustments exc].
  reflexivity.
Qed.

End ResolverFacts.

(** C6: each of the three coverage types has exactly one entry in the policy
    table and exactly one in the discount table (in the dict displays of the
    source and in the dicts they build); no stored base weight is the
    sentinel [-1]; so for a coverage type of the table the guard
    [policy_weight == -1] is false, [calc_policy_adjustment] returns
    [policy_weight + adjustments] and logs no invalid-weight warning. *)
Theorem static_tables_invariant :
  Forall (fun ct =>
            entries_for ct (PolicyAddOnMap.POLICY_ADD_ON_ITEMS (N:=Q)) = 1%nat
            /\ entries_for ct (map_to_list (PolicyAddOnMap.POLICY_ADD_ON_MAP (N:=Q))) = 1%nat
            /\ entries_for ct (PolicyDiscountMap.POLICY_DISCOUNT_ITEMS (N:=Q)) = 1%nat
            /\ entries_for ct (map_to_list (PolicyDiscountMap.POLICY_DISCOUNT_MAP (N:=Q))) = 1%nat)
         coverage_types
  /\ (forall policy_type (policy_obj : PolicyObj.t Q),
        PolicyAddOnMap.POLICY_ADD_ON_MAP !! policy_type = Some policy_obj ->
        ~ (PolicyObj.weight policy_obj == -1)%Q
        /\ weight_is_sentinel policy_obj = false
        /\ forall add_ons log,
             exists adjustments log',
               calc_policy_adjustment (Some policy_type) add_ons log
               = (Returned (PolicyObj.weight policy_obj + adjustments)%Q, log ++ log')
               /\ Forall (fun r => message r <> invalid_weight_warning) log')
  /\ (forall policy_type (policy_obj : PolicyObj.t float),
        PolicyAddOnMap.POLICY_ADD_ON_MAP !! policy_type = Some policy_obj ->
        weight_is_sentinel policy_obj = false).
Proof.
  split; [|split].
  - unfold coverage_types. repeat constructor; vm_compute; reflexivity.
  - intros policy_type policy_obj Hl.
    pose proof (weight_not_sentinel_Q _ _ Hl) as Hw.
    split; [|split; [exact Hw|]].
    + intros Heq. unfold weight_is_sentinel in Hw. exact_arith.
      apply Qeq_bool_iff in Heq. congruence.
    + intros add_ons log.
      rewrite (calc_policy_adjustment_present _ _ _ _ Hl Hw).
      destruct (match add_ons with
                | Some l => add_ons_loop policy_obj l (lit 0)
                | None => _
                end) as [adjustments [e|]]; eexists _, _; (split; [reflexivity|]).
      * repeat constructor. cbn. unfold invalid_weight_warning. discriminate.
      * constructor.
  - apply weight_not_sentinel_float.
Qed.

Lemma static_tables_invariant_witness :
  weight_is_sentinel
    (PolicyObj.mk (N:=Q) 1.5%Q
       (dict_display
          [ (AddOnKeys.ROADSIDE_ASSISTANCE, AddOnWeights.ROADSIDE_ASSISTANCE);
            (AddOnKeys.RENTAL_REIMBURSEMENT, AddOnWeights.RENTAL_REIMBURSEMENT);
            (AddOnKeys.GAP_COVERAGE, AddOnWeights.GAP_COVERAGE);
            (AddOnKeys.GLASS_COVERAGE, AddOnWeights.GLASS_COVERAGE) ])) = false.
Proof.
  refine (proj1 (proj2 (proj1 (proj2 static_tables_invariant)
                          CoverageType.FULL_COVERAGE _ _))).
  vm_compute. reflexivity.
Defined.

(** C7: for full coverage with roadside assistance and rental reimbursement
    [calc_policy_adjustment] returns [1.5 + 0.15 + 0.1 = 1.75]: the table
    holds base weight 1.5 and add-on weights 0.15 and 0.1; the result is 1.75
    in exact arithmetic and also, to the last bit, in binary64. *)
Theorem full_coverage_policy_adjustment :
  (exists policy_obj : PolicyObj.t Q,
      PolicyAddOnMap.POLICY_ADD_ON_MAP !! "full_coverage" = Some policy_obj
      /\ PolicyObj.weight policy_obj = 1.5%Q
      /\ PolicyObj.add_ons policy_obj !! "roadside_assistance" = Some 0.15%Q
      /\ PolicyObj.add_ons policy_obj !! "rental_reimbursement" = Some 0.1%Q)
  /\ (forall log : list (LogRecord Q),
        exists v : Q,
          calc_policy_adjustment (Some "full_coverage")
            (Some ["roadside_assistance"; "rental_reimbursement"]) log
          = (Returned v, log)
          /\ (v == 1.5 + 0.15 + 0.1)%Q /\ (v == 1.75)%Q)
  /\ (forall log : list (LogRecord float),
        calc_policy_adjustment (Some "full_coverage")
          (Some ["roadside_assistance"; "rental_reimbursement"]) log
        = (Returned 1.75%float, log))
  /\ (1.5 + 0.15 + 0.1 = 1.75)%float.
Proof.
  split; [|split; [|split]].
  - eexists. split; [vm_compute; reflexivity|].
    repeat split; vm_compute; reflexivity.
  - intros log. eexists. split; [|split].
    + run_from_empty_log (log_extending_calc_policy_adjustment (N:=Q)).
      reflexivity.
    + vm_compute. reflexivity.
    + vm_compute. reflexivity.
  - intros log.
    run_from_empty_log (log_extending_calc_policy_adjustment (N:=float)).
    reflexivity.
  - vm_compute. reflexivity.
Qed.

(** ** The policy resolver on unknown keys *)

(** C1, as the code behaves: for a coverage type absent from the policy table
    [calc_policy_adjustment] returns no value; the subscript of the missing
    entry raises [TypeError], which nothing catches, and the exception also
    leaves [calculate_quote].  [calc_discounts] on the same coverage type
    returns 0.0 and logs a warning. *)
Theorem calc_policy_adjustment_unknown_type_raises :
  (forall (add_ons : option (list string)) (log : list (LogRecord Q)),
     calc_policy_adjustment (Some "premium") add_ons log = (Raised not_subscriptable, log)
     /\ calc_policy_adjustment None add_ons log = (Raised not_subscriptable, log))
  /\ (forall log : list (LogRecord Q),
        fst (calculate_quote default_policy_quote_inputs log) = Raised not_subscriptable)
  /\ (forall log : list (LogRecord Q),
        calc_discounts (Some "premium") (Some []) log
        = (Returned 0.0%Q,
           log ++ [mkLog WARNING
                     "Invalid policy type 'premium' for discount calculation." []])).
Proof.
  split; [|split].
  - intros add_ons log.
    split; apply calc_policy_adjustment_absent; vm_compute; reflexivity.
  - intros log. rewrite (log_extending_calculate_quote (N:=Q)). cbn [fst].
    vm_compute. reflexivity.
  - intros log. run_from_empty_log (log_extending_calc_discounts (N:=Q)).
    reflexivity.
Qed.

(** C2, as the code behaves: the first add-on key the sub-table lacks ends the
    loop; under liability, [gap_coverage] followed by [roadside_assistance]
    yields the base weight 1.0 and not 1.15, while the same two keys in the
    other order yield 1.15.  [calc_discounts] skips an unknown key and goes
    on. *)
Theorem calc_policy_adjustment_stops_at_unknown_add_on :
  (forall log : list (LogRecord Q),
     exists v : Q,
       calc_policy_adjustment (Some "liability")
         (Some ["gap_coverage"; "roadside_assistance"]) log
       = (Returned v, log ++ [policy_adjustment_failed])
       /\ (v == 1.0)%Q /\ ~ (v == 1.0 + 0.15)%Q)
  /\ (forall log : list (LogRecord Q),
        exists v : Q,
          calc_policy_adjustment (Some "liability")
            (Some ["roadside_assistance"; "gap_coverage"]) log
          = (Returned v, log ++ [policy_adjustment_failed])
          /\ (v == 1.0 + 0.15)%Q)
  /\ (forall log : list (LogRecord float),
        calc_policy_adjustment (Some "liability")
          (Some ["gap_coverage"; "roadside_assistance"]) log
        = (Returned 1%float, log ++ [policy_adjustment_failed]))
  /\ (forall log : list (LogRecord Q),
        exists v : Q,
          fst (calc_discounts (Some "liability") (Some ["safe_driver"; "multi_policy"]) log)
          = Returned v
          /\ (v == 0.1)%Q).
Proof.
  split; [|split; [|split]].
  - intros log. eexists. split; [|split].
    + run_from_empty_log (log_extending_calc_policy_adjustment (N:=Q)). reflexivity.
    + vm_compute. reflexivity.
    + vm_compute. discriminate.
  - intros log. eexists. split.
    + run_from_empty_log (log_extending_calc_policy_adjustment (N:=Q)). reflexivity.
    + vm_compute. reflexivity.
  - intros log.
    run_from_empty_log (log_extending_calc_policy_adjustment (N:=float)). reflexivity.
  - intros log. eexists. split.
    + run_from_empty_log (log_extending_calc_discounts (N:=Q)). reflexivity.
    + vm_compute. reflexivity.
Qed.

(** ** The discount resolver *)

Lemma discounts_loop_run {N : Type} `{PyNumber N} (policy_type : option string)
    (discount_obj : gmap string N) (keys : list string) :
  forall (discount_total : N) (log : list (LogRecord N)),
    discounts_loop policy_type discount_obj keys discount_total log
    = (Returned (foldl add discount_total (recognized_fractions discount_obj keys)),
       log ++ unknown_discount_warnings policy_type discount_obj keys).
Proof.
  induction keys as [|k keys IH]; intros discount_total log;
    cbn [discounts_loop recognized_fractions unknown_discount_warnings omap list_omap].
  - cbn. rewrite app_nil_r. reflexivity.
  - fold (recognized_fractions discount_obj keys).
    fold (unknown_discount_warnings policy_type discount_obj keys).
    destruct (discount_obj !! k) as [w|] eqn:Hk.
    + rewrite IH. reflexivity.
    + cbv [mbind Py_bind bind LOGGER_warning emit].
      rewrite IH, <- app_assoc. reflexivity.
Qed.

Lemma foldl_Qplus_Qsum (l : list Q) (acc : Q) :
  (foldl Qplus acc l == acc + Qsum l)%Q.
Proof.
  revert acc. induction l as [|x l IH]; intros acc; cbn [foldl Qsum foldr].
  - ring.
  - rewrite IH. fold (Qsum l). ring.
Qed.

(** C5: on a coverage type absent from the discount table [calc_discounts]
    returns 0.0 (and logs a warning, raising nothing); on a coverage type of
    the table and any list of keys it skips each key the sub-table lacks, one
    by one, goes on with the rest and returns the sum of the fractions of the
    recognized keys, with one warning per skipped key; for liability and
    [safe_driver] the result is 0.0. *)
Theorem calc_discounts_behaviour :
  (forall (N : Type) (HN : PyNumber N) (policy_type : option string)
          (discounts : option (list string)) (log : list (LogRecord N)),
     dict_get PolicyDiscountMap.POLICY_DISCOUNT_MAP policy_type = None ->
     calc_discounts policy_type discounts log
     = (Returned (lit 0.0),
        log ++ [mkLog WARNING
                  ("Invalid policy type '" ++ fmt_key policy_type
                   ++ "' for discount calculation.") []]))
  /\ (forall (N : Type) (HN : PyNumber N) (policy_type : string)
             (discount_obj : gmap string N) (keys : list string)
             (log : list (LogRecord N)),
        PolicyDiscountMap.POLICY_DISCOUNT_MAP !! policy_type = Some discount_obj ->
        calc_discounts (Some policy_type) (Some keys) log
        = (Returned (accumulate (recognized_fractions discount_obj keys)),
           log ++ unknown_discount_warnings (Some policy_type) discount_obj keys))
  /\ (forall (policy_type : string) (discount_obj : gmap string Q)
             (keys : list string) (log : list (LogRecord Q)),
        PolicyDiscountMap.POLICY_DISCOUNT_MAP !! policy_type = Some discount_obj ->
        exists v : Q,
          fst (calc_discounts (Some policy_type) (Some keys) log) = Returned v
          /\ (v == Qsum (recognized_fractions discount_obj keys))%Q)
  /\ (forall log : list (LogRecord Q),
        exists v : Q,
          calc_discounts (Some "liability") (Some ["safe_driver"]) log
          = (Returned v,
             log ++ [mkLog WARNING
                       "Discount key 'safe_driver' not found for policy type 'liability'"
                       []])
          /\ (v == 0.0)%Q)
  /\ (forall log : list (LogRecord float),
        fst (calc_discounts (Some "liability") (Some ["safe_driver"]) log)
        = Returned 0%float).
Proof.
  assert (Hpresent :
    forall (N : Type) (HN : PyNumber N) (policy_type : string)
           (discount_obj : gmap string N) (keys : list string)
           (log : list (LogRecord N)),
      PolicyDiscountMap.POLICY_DISCOUNT_MAP !! policy_type = Some discount_obj ->
      calc_discounts (Some policy_type) (Some keys) log
      = (Returned (accumulate (recognized_fractions discount_obj keys)),
         log ++ unknown_discount_warnings (Some policy_type) discount_obj keys)).
  { intros N HN policy_type discount_obj keys log Hl.
    unfold calc_discounts, dict_get. rewrite Hl. apply discounts_loop_run. }
  split; [|split; [|split; [|split]]].
  - intros N HN policy_type discounts log Hl.
    unfold calc_discounts. rewrite Hl. reflexivity.
  - exact Hpresent.
  - intros policy_type discount_obj keys log Hl.
    rewrite (Hpresent Q _ _ _ keys log Hl). cbn [fst].
    eexists. split; [reflexivity|].
    unfold accumulate. exact_arith. rewrite foldl_Qplus_Qsum. ring.
  - intros log. eexists. split.
    + run_from_empty_log (log_extending_calc_discounts (N:=Q)). reflexivity.
    + vm_compute. reflexivity.
  - intros log.
    run_from_empty_log (log_extending_calc_discounts (N:=float)). reflexivity.
Qed.

Lemma calc_discounts_behaviour_witness :
  exists v : Q,
    fst (calc_discounts (Some "full_coverage")
           (Some ["multi_policy"; "low_mileage"; "safe_driver"; "anti_theft"]) [])
    = Returned v
    /\ (v == 0.1 + 0.12 + 0.03)%Q.
Proof.
  destruct (proj1 (proj2 (proj2 calc_discounts_behaviour)) "full_coverage"
              (dict_display
                 [ (DiscountKeys.MULTI_POLICY, DiscountWeights.MULTI_POLICY);
                   (DiscountKeys.SAFE_DRIVER, DiscountWeights.SAFE_DRIVER);
                   (DiscountKeys.ANTI_THEFT, DiscountWeights.ANTI_THEFT) ])
              ["multi_policy"; "low_mileage"; "safe_driver"; "anti_theft"] [])
    as (v & Hrun & Hv).
  - vm_compute. reflexivity.
  - exists v. split.
    + exact Hrun.
    + rewrite Hv. vm_compute. reflexivity.
Defined.

(** ** The resolvers on [None] *)

(** C10: for a coverage type of the tables, [calc_policy_adjustment] with
    [add_ons = None] returns the base weight and [calc_discounts] with
    [discounts = None] returns 0.0; in both the failure to iterate over
    [None] is caught and logged, and a value is returned. *)
Theorem resolvers_on_None :
  (forall (policy_type : string) (policy_obj : PolicyObj.t Q) (log : list (LogRecord Q)),
     PolicyAddOnMap.POLICY_ADD_ON_MAP !! policy_type = Some policy_obj ->
     exists v : Q,
       calc_policy_adjustment (Some policy_type) None log
       = (Returned v, log ++ [policy_adjustment_failed])
       /\ (v == PolicyObj.weight policy_obj)%Q)
  /\ (forall (N : Type) (HN : PyNumber N) (policy_type : string)
             (discount_obj : gmap string N) (log : list (LogRecord N)),
        PolicyDiscountMap.POLICY_DISCOUNT_MAP !! policy_type = Some discount_obj ->
        calc_discounts (Some policy_type) None log
        = (Returned (lit 0.0), log ++ [discounts_failed]))
  /\ Forall (fun ct =>
               exists policy_obj : PolicyObj.t float,
                 PolicyAddOnMap.POLICY_ADD_ON_MAP !! ct = Some policy_obj
                 /\ calc_policy_adjustment (Some ct) None []
                    = (Returned (PolicyObj.weight policy_obj), [policy_adjustment_failed])
                 /\ calc_discounts (N:=float) (Some ct) None []
                    = (Returned 0%float, [discounts_failed]))
            coverage_types.
Proof.
  split; [|split].
  - intros policy_type policy_obj log Hl.
    rewrite (calc_policy_adjustment_present _ _ _ _ Hl (weight_not_sentinel_Q _ _ Hl)).
    eexists. split; [reflexivity|]. exact_arith. ring.
  - intros N HN policy_type discount_obj log Hl.
    unfold calc_discounts, dict_get. rewrite Hl. reflexivity.
  - unfold coverage_types.
    repeat constructor; eexists; (split; [vm_compute; reflexivity|]);
      split; vm_compute; reflexivity.
Qed.

Lemma resolvers_on_None_witness :
  exists v : Q,
    fst (calc_policy_adjustment (Some "collision_only") None []) = Returned v
    /\ (v == 1.2)%Q.
Proof.
  destruct (proj1 resolvers_on_None "collision_only"
              (PolicyObj.mk 1.2%Q
                 (dict_display
                    [ (AddOnKeys.RENTAL_REIMBURSEMENT, AddOnWeights.RENTAL_REIMBURSEMENT);
                      (AddOnKeys.GLASS_COVERAGE, AddOnWeights.GLASS_COVERAGE) ])) [])
    as (v & Hrun & Hv).
  - vm_compute. reflexivity.
  - exists v. split; [rewrite Hrun; reflexivity | exact Hv].
Defined.

(** ** The quote composer *)

Section ComposerFacts.
Context {N : Type} `{PyNumber N}.
Local Open Scope py_scope.

Lemma check_attrs_returns (path : string) (items : list (string * PyValue N))
    (log : list (LogRecord N)) :
  exists log', check_attrs path items log = (Returned tt, log').
Proof.
  revert log. induction items as [|[attr value] rest IH]; intros log; cbn [check_attrs].
  - eexists. reflexivity.
  - cbv [mbind Py_bind bind].
    assert (Hattr : exists log1, check_attr path attr value log = (Returned tt, log1)).
    { unfold check_attr, LOGGER_warning, emit.
      destruct value; repeat case_match; eexists; reflexivity. }
    destruct Hattr as [log1 ->]. apply IH.
Qed.

Lemma check_defaults_returns (items : list (string * PyValue N)) (path : string)
    (log : list (LogRecord N)) :
  exists log', check_defaults (Some items) path log = (Returned tt, log').
Proof. apply check_attrs_returns. Qed.

Lemma calculate_quote_outcome (quote_inputs_ctx : QuoteInputs.t N)
    (log : list (LogRecord N)) :
  fst (calculate_quote quote_inputs_ctx log) = spec_outcome quote_inputs_ctx.
Proof.
  unfold calculate_quote, spec_outcome. cbv zeta. cbv [mbind Py_bind bind].
  repeat match goal with
         | |- context [check_defaults (Some ?items) ?path ?l] =>
             let log' := fresh "log" in
             destruct (check_defaults_returns items path l) as [log' ->]
         end.
  match goal with
  | |- context [calc_policy_adjustment ?pt ?ao ?l] =>
      rewrite (log_extending_calc_policy_adjustment pt ao l);
      destruct (fst (calc_policy_adjustment pt ao [])) as [policy_adjustment|e];
      [|reflexivity]
  end.
  match goal with
  | |- context [calc_discounts ?pt ?ds ?l] =>
      rewrite (log_extending_calc_discounts pt ds l);
      destruct (fst (calc_discounts pt ds [])) as [dd|e];
      [|reflexivity]
  end.
  reflexivity.
Qed.

End ComposerFacts.

(** C9: [calculate_quote] is deterministic: its outcome (the result with all
    its fields, or the exception) is the same from any two logs, so a second
    call with the same request, made after the first has logged, gives the
    same outcome; the logger is the only state the computation touches, and
    it is only appended to. *)
Theorem calculate_quote_deterministic :
  forall (N : Type) (HN : PyNumber N) (quote_inputs_ctx : QuoteInputs.t N),
    (forall log1 log2 : list (LogRecord N),
       fst (calculate_quote quote_inputs_ctx log1)
       = fst (calculate_quote quote_inputs_ctx log2))
    /\ (forall log : list (LogRecord N),
          let first := calculate_quote quote_inputs_ctx log in
          let second := calculate_quote quote_inputs_ctx (snd first) in
          fst second = fst first
          /\ exists emitted, snd first = log ++ emitted
                             /\ snd second = log ++ emitted ++ emitted).
Proof.
  intros N HN quote_inputs_ctx. split.
  - intros log1 log2.
    rewrite (log_extending_calculate_quote quote_inputs_ctx log1).
    rewrite (log_extending_calculate_quote quote_inputs_ctx log2).
    reflexivity.
  - intros log first second. subst first second.
    rewrite (log_extending_calculate_quote quote_inputs_ctx
               (snd (calculate_quote quote_inputs_ctx log))).
    rewrite (log_extending_calculate_quote quote_inputs_ctx log).
    cbn [fst snd]. split; [reflexivity|].
    eexists. split; [reflexivity|]. rewrite <- app_assoc. reflexivity.
Qed.

(** C3: [calculate_quote] composes [grossQuote = 320 * driverRisk * vehicleRisk
    * locationRisk * policyAdjustment], [discountAmount = grossQuote *
    discountFraction] and [netQuote = grossQuote - discountAmount]; on the
    reference request of [test.py] the intermediate values are
    accidentPoints 5.5, violationPoints 0.015, crimeScore 2, locationRisk
    1.16, repairScore 16.5, theftScore 4.16, safetyScore 11, vehicleRisk
    1.0966, driverRisk 1.260725 (about 1.2607), policyAdjustment 1.75 and
    discountFraction 0.25, the gross quote is their product with 320 and the
    net quote is 0.75 of it; the binary64 run agrees within 1e-9. *)
Theorem calculate_quote_composition :
  (forall (N : Type) (HN : PyNumber N) (request : QuoteInputs.t N)
          (log : list (LogRecord N)),
     fst (calculate_quote request log) = spec_outcome request)
  /\ (forall (N : Type) (HN : PyNumber N) (request : QuoteInputs.t N) (pa dd : N),
        let r := spec_quote request pa dd in
        let w := QuoteResult.weights r in
        QuoteResult.base_rate r = lit 320
        /\ Weights.policy_adjustment w = pa
        /\ Weights.discount w = dd
        /\ QuoteResult.original_quote r
           = (QuoteResult.base_rate r * Weights.driver_risk w * Weights.vehicle_risk w
              * Weights.location_risk w * Weights.policy_adjustment w)%py
        /\ QuoteResult.total_discount r
           = (QuoteResult.original_quote r * Weights.discount w)%py
        /\ QuoteResult.quote r
           = (QuoteResult.original_quote r - QuoteResult.total_discount r)%py)
  /\ ((calc_accident_points (N:=Q) 1 1 2 0 0 == 5.5)%Q
      /\ (calc_accident_points (N:=Q) 1 1 2 0 0 == 3 + 1.5 + 1 + 0 + 0)%Q
      /\ (calc_violation_points (N:=Q) 1 == 0.015)%Q
      /\ (calc_crime_score (N:=Q) 4 2 == 2)%Q
      /\ (calc_location_risk (N:=Q) 5.5 2 == 1 + 0.11 + 0.05)%Q
      /\ (calc_repair_score (N:=Q) 3 2 4 15 == 3 + 2 + 4 + 7.5)%Q
      /\ (calc_theft_score (N:=Q) 5 1.16 2 == 5 + 1.16 - 2)%Q
      /\ (calc_saftey_score (N:=Q) 4 2 3 == 4 + 4 + 3)%Q
      /\ (calc_vehicle_risk (N:=Q) 16.5 4.16 11 == 1 + (16.5 + 4.16 - 11) / 100)%Q
      /\ (calc_driver_risk (N:=Q) 5.5 0.015 5 23
          == 1 + 0.11 + 0.000225 - (- (0.0005)) + 0.15)%Q)
  /\ (forall log : list (LogRecord Q),
        exists r : QuoteResult.t Q,
          fst (calculate_quote test_quote_inputs log) = Returned r
          /\ (QuoteResult.base_rate r == 320)%Q
          /\ (Weights.location_risk (QuoteResult.weights r) == 1.16)%Q
          /\ (Scores.repair_score (QuoteResult.scores r) == 16.5)%Q
          /\ (Scores.theft_score (QuoteResult.scores r) == 4.16)%Q
          /\ (Scores.safety_score (QuoteResult.scores r) == 11)%Q
          /\ (Weights.vehicle_risk (QuoteResult.weights r) == 1.0966)%Q
          /\ (Weights.driver_risk (QuoteResult.weights r) == 1.260725)%Q
          /\ (Qabs (Weights.driver_risk (QuoteResult.weights r) - 1.2607) < 0.0001)%Q
          /\ (Weights.policy_adjustment (QuoteResult.weights r) == 1.75)%Q
          /\ (Weights.discount (QuoteResult.weights r) == 0.25)%Q
          /\ (QuoteResult.original_quote r
              == 320 * Weights.driver_risk (QuoteResult.weights r)
                 * Weights.vehicle_risk (QuoteResult.weights r)
                 * Weights.location_risk (QuoteResult.weights r) * 1.75)%Q
          /\ (QuoteResult.original_quote r == 898.079168336)%Q
          /\ (QuoteResult.total_discount r == QuoteResult.original_quote r * 0.25)%Q
          /\ (QuoteResult.quote r == QuoteResult.original_quote r * 0.75)%Q)
  /\ (exists r : QuoteResult.t float,
        fst (calculate_quote test_quote_inputs []) = Returned r
        /\ QuoteResult.base_rate r = 320%float
        /\ Weights.policy_adjustment (QuoteResult.weights r) = 1.75%float
        /\ Weights.discount (QuoteResult.weights r) = 0.25%float
        /\ Scores.repair_score (QuoteResult.scores r) = 16.5%float
        /\ Scores.safety_score (QuoteResult.scores r) = 11%float
        /\ close (Scores.theft_score (QuoteResult.scores r)) 4.16 = true
        /\ close (Weights.location_risk (QuoteResult.weights r)) 1.16 = true
        /\ close (Weights.vehicle_risk (QuoteResult.weights r)) 1.0966 = true
        /\ close (Weights.driver_risk (QuoteResult.weights r)) 1.260725 = true
        /\ close (QuoteResult.original_quote r) 898.079168336 = true
        /\ close (QuoteResult.total_discount r) (898.079168336 * 0.25) = true
        /\ close (QuoteResult.quote r) (898.079168336 * 0.75) = true).
Proof.
  split; [|split; [|split; [|split]]].
  - intros N HN request log. apply calculate_quote_outcome.
  - intros N HN request pa dd r w. subst r w. cbn. repeat split; reflexivity.
  - repeat split; vm_compute; reflexivity.
  - intros log. rewrite (log_extending_calculate_quote (N:=Q)). cbn [fst].
    eexists. split; [vm_compute; reflexivity|].
    repeat split; vm_compute; reflexivity.
  - eexists. split; [vm_compute; reflexivity|].
    repeat split; vm_compute; reflexivity.
Qed.

(* ===================================================================== *)
(** * Further properties of the formulas *)
(* ===================================================================== *)

(** X1: for a non-negative number of violations [calc_violation_points] is
    at least the constant offset 0.005, which it takes at zero violations
    (also to the last bit in binary64), and it is strictly increasing. *)
Theorem calc_violation_points_floor (violations : Q) :
  (0 <= violations)%Q ->
  (0.005 <= calc_violation_points violations)%Q
  /\ (calc_violation_points (N:=Q) 0 == 0.005)%Q
  /\ calc_violation_points (N:=float) (lit 0) = 0.005%float
  /\ (forall more : Q,
        (violations < more)%Q ->
        (calc_violation_points violations < calc_violation_points more)%Q).
Proof.
  intros Hv. unfold calc_violation_points. exact_arith.
  split; [lra|]. split; [ring|]. split; [vm_compute; reflexivity|].
  intros more Hlt. lra.
Qed.

Lemma calc_violation_points_floor_witness :
  (0.005 <= calc_violation_points (N:=Q) 1)%Q.
Proof.
  refine (proj1 (calc_violation_points_floor 1%Q _)).
  vm_compute. discriminate.
Defined.



(** X4: for non-negative accident points, violation points and years clean
    the driver risk is never below the neutral 1.0, whatever the age, and
    it equals 1.0 exactly when the three are zero and the age is in
    [25, 65); inside [calculate_quote], where the violation points come from
    [calc_violation_points], it is at least 1.000075. *)
Theorem calc_driver_risk_floor (accident_points violation_points years_clean age : Q) :
  (0 <= accident_points)%Q -> (0 <= violation_points)%Q -> (0 <= years_clean)%Q ->
  (1 <= calc_driver_risk accident_points violation_points years_clean age)%Q
  /\ ((calc_driver_risk accident_points violation_points years_clean age == 1)%Q
      <-> (accident_points == 0 /\ violation_points == 0 /\ years_clean == 0
           /\ 25 <= age /\ age < 65)%Q)
  /\ (1.000075
      <= calc_driver_risk accident_points (calc_violation_points violation_points)
           years_clean age)%Q.
Proof.
  intros Ha Hv Hy.
  assert (Hvp : (0.005 <= calc_violation_points violation_points)%Q)
    by (unfold calc_violation_points; exact_arith; lra).
  destruct (calc_driver_risk_unfold accident_points
              (calc_violation_points violation_points) years_clean age)
    as (adj' & (Hlo' & Hmid' & Hhi') & Heq').
  destruct (calc_driver_risk_unfold accident_points violation_points years_clean age)
    as (adj & (Hlo & Hmid & Hhi) & Heq).
  rewrite Heq, Heq'.
  destruct (Qlt_le_dec age 25) as [H25|H25].
  - rewrite (Hlo H25), (Hlo' H25).
    repeat split; try lra; intros (Ha0 & Hv0 & Hy0 & Hge & Hlt); lra.
  - destruct (Qlt_le_dec age 65) as [H65|H65].
    + rewrite (Hmid H25 H65), (Hmid' H25 H65).
      repeat split; try lra; intros (Ha0 & Hv0 & Hy0 & Hge & Hlt); lra.
    + rewrite (Hhi H65), (Hhi' H65).
      repeat split; try lra; intros (Ha0 & Hv0 & Hy0 & Hge & Hlt); lra.
Qed.

Lemma calc_driver_risk_floor_witness :
  (1 <= calc_driver_risk (N:=Q) 5.5 0.015 5 23)%Q.
Proof.
  refine (proj1 (calc_driver_risk_floor 5.5 0.015 5 23 _ _ _)%Q);
    vm_compute; discriminate.
Defined.

(* ===================================================================== *)
(** * Further properties of the default-value audit *)
(* ===================================================================== *)




Section AuditFacts.
Context {N : Type} `{PyNumber N}.



End AuditFacts.


(* ===================================================================== *)
(** * Further properties of the quote composer *)
(* ===================================================================== *)

Section ComposerRuns.
Context {N : Type} `{PyNumber N}.


Lemma calc_discounts_returns (policy_type : option string)
    (discounts : option (list string)) (log : list (LogRecord N)) :
  exists v, fst (calc_discounts policy_type discounts log) = Returned v.
Proof.
  unfold calc_discounts.
  destruct (dict_get _ policy_type) as [discount_obj|]; [|eexists; reflexivity].
  destruct discounts as [discounts|]; [|eexists; reflexivity].
  rewrite discounts_loop_run. eexists. reflexivity.
Qed.

(** The policy table holds the three coverage types and no other key. *)
Lemma POLICY_ADD_ON_MAP_dom (policy_type : string) :
  is_Some (PolicyAddOnMap.POLICY_ADD_ON_MAP (N:=N) !! policy_type)
  <-> In policy_type coverage_types.
Proof.
  split.
  - intros [policy_obj Hl]. apply POLICY_ADD_ON_MAP_lookup in Hl.
    cbn in Hl. destruct Hl as [Hl | [Hl | [Hl | []]]]; inversion Hl; cbn; tauto.
  - intros Hin. cbn in Hin.
    destruct Hin as [<- | [<- | [<- | []]]]; eexists; vm_compute; reflexivity.
Qed.

End ComposerRuns.



(** X8: on [QuoteInputs()] as the constructors build it, [calculate_quote]
    logs 20 audit warnings (7 for the driver: [years_clean] defaults to 1 and
    is not reported; 9 for the vehicle, 2 for the location, 2 for the policy),
    then raises [TypeError] since the coverage type is [None]; no INFO record
    is logged.  The same holds on binary64 numbers. *)
Theorem calculate_quote_default_inputs :
  (forall log : list (LogRecord Q),
     exists warnings,
       calculate_quote default_QuoteInputs log
       = (Raised not_subscriptable, log ++ warnings)
       /\ length warnings = 20%nat
       /\ Forall (fun r => levelname r = WARNING) warnings
       /\ length (audit_warnings (N:=Q) "driver_inputs"
                    (vars_DriverInputs default_DriverInputs)) = 7%nat
       /\ ~ In "Warning: driver_inputs.years_clean is using default value -1"
              (map message warnings))
  /\ (exists warnings,
        calculate_quote (N:=float) default_QuoteInputs []
        = (Raised not_subscriptable, warnings)
        /\ length warnings = 20%nat).
Proof.
  split.
  - intros log. rewrite (log_extending_calculate_quote (N:=Q)).
    match goal with
    | |- context [fst (?m [])] =>
        let r := eval vm_compute in (m []) in
        replace (m []) with r by (vm_compute; reflexivity)
    end.
    cbn [fst snd]. eexists.
    split; [reflexivity|].
    split; [vm_compute; reflexivity|].
    split; [repeat constructor|].
    split; [vm_compute; reflexivity|].
    cbn [map message]. intros Hin.
    repeat (destruct Hin as [Hin|Hin]; [discriminate Hin|]). exact Hin.
  - eexists. split; vm_compute; reflexivity.
Qed.

Lemma calculate_quote_returned {N : Type} `{PyNumber N}
    (quote_inputs_ctx : QuoteInputs.t N) (log : list (LogRecord N))
    (r : QuoteResult.t N) :
  fst (calculate_quote quote_inputs_ctx log) = Returned r ->
  let policy := QuoteInputs.policy_inputs quote_inputs_ctx in
  exists pa dd,
    fst (calc_policy_adjustment (PolicyInputs.coverage_type policy)
           (PolicyInputs.add_ons policy) []) = Returned pa
    /\ fst (calc_discounts (PolicyInputs.coverage_type policy)
              (DiscountsInputs.discounts (QuoteInputs.discount_inputs quote_inputs_ctx))
              []) = Returned dd
    /\ r = spec_quote quote_inputs_ctx pa dd.
Proof.
  rewrite calculate_quote_outcome. unfold spec_outcome. cbv zeta.
  destruct (fst (calc_policy_adjustment _ _ [])) as [pa|e]; [|discriminate].
  destruct (fst (calc_discounts _ _ [])) as [dd|e]; [|discriminate].
  intros Hr. injection Hr as <-. exists pa, dd. repeat split.
Qed.





(* ===================================================================== *)
(** * Further properties of the discount selection and resolver *)
(* ===================================================================== *)

(** X11: [DiscountsInputs.get_discounts] lists a discount key exactly when
    its flag is set, lists no key twice, keeps the order multi_policy,
    safe_driver, low_mileage, anti_theft, and returns as many keys as flags
    are set; reading the flags back from the list and calling it again gives
    the same list. *)
Theorem get_discounts_flags :
  forall multi_policy safe_driver low_mileage anti_theft : bool,
    let discounts :=
      DiscountsInputs.get_discounts multi_policy safe_driver low_mileage anti_theft in
    (DiscountKeys.MULTI_POLICY ∈ discounts <-> multi_policy = true)
    /\ (DiscountKeys.SAFE_DRIVER ∈ discounts <-> safe_driver = true)
    /\ (DiscountKeys.LOW_MILEAGE ∈ discounts <-> low_mileage = true)
    /\ (DiscountKeys.ANTI_THEFT ∈ discounts <-> anti_theft = true)
    /\ NoDup discounts
    /\ discounts = filter (fun key => key ∈ discounts) discount_keys_in_order
    /\ length discounts
       = (Nat.b2n multi_policy + Nat.b2n safe_driver + Nat.b2n low_mileage
          + Nat.b2n anti_theft)%nat
    /\ DiscountsInputs.get_discounts
         (bool_decide (DiscountKeys.MULTI_POLICY ∈ discounts))
         (bool_decide (DiscountKeys.SAFE_DRIVER ∈ discounts))
         (bool_decide (DiscountKeys.LOW_MILEAGE ∈ discounts))
         (bool_decide (DiscountKeys.ANTI_THEFT ∈ discounts))
       = discounts.
Proof.
  intros [] [] [] []; cbv zeta;
    (split; [split; compute_done|]);
    (split; [split; compute_done|]);
    (split; [split; compute_done|]);
    (split; [split; compute_done|]);
    (split; [compute_done|]);
    (split; [compute_done|]);
    (split; compute_done).
Qed.









(** The fraction resolved for the keys of any four flags, under any coverage
    type of the tables, is between 0 and 0.25. *)
Lemma flags_discount_bound (coverage_type : string)
    (multi_policy safe_driver low_mileage anti_theft : bool) :
  In coverage_type coverage_types ->
  exists v : Q,
    fst (calc_discounts (Some coverage_type)
           (Some (DiscountsInputs.get_discounts multi_policy safe_driver
                    low_mileage anti_theft)) [])
    = Returned v
    /\ (0 <= v)%Q /\ (v <= 0.25)%Q.
Proof.
  intros Hin. cbn in Hin.
  destruct Hin as [<- | [<- | [<- | []]]];
    destruct multi_policy, safe_driver, low_mileage, anti_theft;
    eexists; (split; [vm_compute; reflexivity|]);
    split; vm_compute; discriminate.
Qed.

(** X14: when the discount keys come from [get_discounts], the resolved
    fraction is between 0 and 0.25 under every coverage type of the tables
    and for every choice of the four flags, so a returned result with a
    non-negative gross quote has a net quote between three quarters of the
    gross quote and the gross quote. *)
Theorem get_discounts_quote_bound :
  (forall (coverage_type : string) (multi_policy safe_driver low_mileage anti_theft : bool)
          (log : list (LogRecord Q)),
     In coverage_type coverage_types ->
     exists v : Q,
       fst (calc_discounts (Some coverage_type)
              (Some (DiscountsInputs.get_discounts multi_policy safe_driver
                       low_mileage anti_theft)) log)
       = Returned v
       /\ (0 <= v)%Q /\ (v <= 0.25)%Q)
  /\ (forall (quote_inputs_ctx : QuoteInputs.t Q) (log : list (LogRecord Q))
             (r : QuoteResult.t Q)
             (multi_policy safe_driver low_mileage anti_theft : bool),
        DiscountsInputs.discounts (QuoteInputs.discount_inputs quote_inputs_ctx)
        = Some (DiscountsInputs.get_discounts multi_policy safe_driver
                  low_mileage anti_theft) ->
        fst (calculate_quote quote_inputs_ctx log) = Returned r ->
        (0 <= QuoteResult.original_quote r)%Q ->
        (0.75 * QuoteResult.original_quote r <= QuoteResult.quote r)%Q
        /\ (QuoteResult.quote r <= QuoteResult.original_quote r)%Q).
Proof.
  split.
  - intros coverage_type mp sd lm at_ log Hin.
    rewrite (log_extending_calc_discounts (N:=Q)). cbn [fst].
    apply flags_discount_bound. exact Hin.
  - intros quote_inputs_ctx log r mp sd lm at_ Hflags Hr Hgross.
    apply calculate_quote_returned in Hr as (pa & dd & Hpa & Hdd & ->).
    cbv zeta in Hpa, Hdd. rewrite Hflags in Hdd.
    destruct (PolicyInputs.coverage_type (QuoteInputs.policy_inputs quote_inputs_ctx))
      as [coverage_type|] eqn:Hct.
    2:{ rewrite calc_policy_adjustment_absent in Hpa by reflexivity. discriminate. }
    assert (Hin : In coverage_type coverage_types).
    { apply (POLICY_ADD_ON_MAP_dom (N:=Q)).
      destruct (PolicyAddOnMap.POLICY_ADD_ON_MAP (N:=Q) !! coverage_type) eqn:Hl;
        [eexists; reflexivity|].
      rewrite calc_policy_adjustment_absent in Hpa by exact Hl. discriminate. }
    destruct (flags_discount_bound coverage_type mp sd lm at_ Hin)
      as (v & Hv & Hv0 & Hv1).
    rewrite Hv in Hdd. injection Hdd as <-.
    revert Hgross. unfold spec_quote. cbv zeta.
    cbn [QuoteResult.original_quote QuoteResult.quote]. exact_arith.
    set (gross := (_ * _ * _ * _ * pa)%Q). intros Hgross. split; nra.
Qed.

Lemma get_discounts_quote_bound_witness :
  exists r : QuoteResult.t Q,
    fst (calculate_quote test_quote_inputs []) = Returned r
    /\ (0.75 * QuoteResult.original_quote r <= QuoteResult.quote r)%Q.
Proof.
  eexists. split; [vm_compute; reflexivity|].
  refine (proj1 (proj2 get_discounts_quote_bound test_quote_inputs [] _
                   true true false true _ _ _)).
  - reflexivity.
  - vm_compute. reflexivity.
  - vm_compute. discriminate.
Defined.

(* ===================================================================== *)
(** * Further properties of the policy resolver *)
(* ===================================================================== *)

Section AddOnsLoop.
Context {N : Type} `{PyNumber N}.

Lemma add_ons_loop_known (policy_obj : PolicyObj.t N) (keys : list string) :
  Forall (known_add_on policy_obj) keys ->
  forall adjustments,
    add_ons_loop policy_obj keys adjustments
    = (foldl add adjustments (recognized_fractions (PolicyObj.add_ons policy_obj) keys),
       None).
Proof.
  induction 1 as [|k keys [w Hk] _ IH]; intros adjustments;
    cbn [add_ons_loop recognized_fractions omap list_omap].
  - reflexivity.
  - rewrite Hk. cbn [foldl]. apply IH.
Qed.

Lemma add_ons_loop_clean_iff (policy_obj : PolicyObj.t N) (keys : list string)
    (adjustments : N) :
  snd (add_ons_loop policy_obj keys adjustments) = None
  <-> Forall (known_add_on policy_obj) keys.
Proof.
  split.
  - revert adjustments. induction keys as [|k keys IH]; intros adjustments Hrun.
    + constructor.
    + cbn [add_ons_loop] in Hrun.
      destruct (PolicyObj.add_ons policy_obj !! k) as [w|] eqn:Hk; [|discriminate].
      constructor; [eexists; exact Hk | eapply IH; exact Hrun].
  - intros Hknown. rewrite (add_ons_loop_known _ _ Hknown). reflexivity.
Qed.

End AddOnsLoop.

(** Every add-on weight of the policy table is positive and every base weight
    is at least 1. *)
Lemma policy_table_weights (policy_type : string) (policy_obj : PolicyObj.t Q) :
  PolicyAddOnMap.POLICY_ADD_ON_MAP !! policy_type = Some policy_obj ->
  (1 <= PolicyObj.weight policy_obj)%Q
  /\ forall key w, PolicyObj.add_ons policy_obj !! key = Some w -> (0 < w)%Q.
Proof.
  intros Hl. apply POLICY_ADD_ON_MAP_lookup in Hl. cbn in Hl.
  destruct Hl as [Hl | [Hl | [Hl | []]]]; inversion Hl; subst; clear Hl;
    (split; [vm_compute; discriminate|]);
    intros key w Hk; cbn [PolicyObj.add_ons] in Hk;
    unfold dict_display in Hk; cbn [foldl fst snd] in Hk;
    repeat (apply lookup_insert_Some in Hk as [[_ <-] | [_ Hk]];
            [vm_compute; reflexivity|]);
    rewrite lookup_empty in Hk; discriminate.
Qed.

Lemma add_ons_loop_ge (policy_obj : PolicyObj.t Q) (keys : list string) :
  (forall key w, PolicyObj.add_ons policy_obj !! key = Some w -> (0 < w)%Q) ->
  forall adjustments : Q,
    (adjustments <= fst (add_ons_loop policy_obj keys adjustments))%Q.
Proof.
  intros Hpos. induction keys as [|k keys IH]; intros adjustments; cbn [add_ons_loop].
  - cbn. lra.
  - destruct (PolicyObj.add_ons policy_obj !! k) as [w|] eqn:Hk; [|cbn; lra].
    specialize (IH (adjustments + w)%py). specialize (Hpos k w Hk).
    revert IH. exact_arith. lra.
Qed.



(** X16: for a coverage type of the policy table, [calc_policy_adjustment]
    logs either nothing or the single ERROR record of its [except] clause;
    it logs nothing exactly when [add_ons] is a list whose keys the sub-table
    all holds (the empty list included), and the error record when [add_ons]
    is [None] or holds an unknown key. *)
Theorem calc_policy_adjustment_error_log
    (policy_type : string) (policy_obj : PolicyObj.t Q)
    (add_ons : option (list string)) (log : list (LogRecord Q)) :
  PolicyAddOnMap.POLICY_ADD_ON_MAP !! policy_type = Some policy_obj ->
  exists (v : Q) (emitted : list (LogRecord Q)),
    calc_policy_adjustment (Some policy_type) add_ons log = (Returned v, log ++ emitted)
    /\ (emitted = [] \/ emitted = [policy_adjustment_failed])
    /\ (emitted = []
        <-> exists keys, add_ons = Some keys /\ Forall (known_add_on policy_obj) keys).
Proof.
  intros Hl.
  rewrite (calc_policy_adjustment_present _ _ _ _ Hl (weight_not_sentinel_Q _ _ Hl)).
  destruct add_ons as [keys|].
  - pose proof (add_ons_loop_clean_iff policy_obj keys (lit 0)) as Hclean.
    destruct (add_ons_loop policy_obj keys (lit 0)) as [adjustments [e|]];
      cbn [snd] in Hclean; eexists _, _; (split; [reflexivity|]).
    + split; [right; reflexivity|]. split; [discriminate|].
      intros (keys' & Hk & Hknown). injection Hk as <-.
      apply Hclean in Hknown. discriminate.
    + split; [left; reflexivity|]. split; [|reflexivity].
      intros _. exists keys. split; [reflexivity|]. apply Hclean. reflexivity.
  - eexists _, _. split; [reflexivity|].
    split; [right; reflexivity|]. split; [discriminate|].
    intros (keys & Hk & _). discriminate.
Qed.

Lemma calc_policy_adjustment_error_log_witness :
  exists (v : Q) (emitted : list (LogRecord Q)),
    calc_policy_adjustment (Some "liability") (Some ["gap_coverage"]) []
    = (Returned v, [] ++ emitted)
    /\ (emitted = [] \/ emitted = [policy_adjustment_failed]).
Proof.
  destruct (calc_policy_adjustment_error_log "liability"
              (PolicyObj.mk 1.0%Q
                 (dict_display
                    [ (AddOnKeys.ROADSIDE_ASSISTANCE, AddOnWeights.ROADSIDE_ASSISTANCE);
                      (AddOnKeys.RENTAL_REIMBURSEMENT, AddOnWeights.RENTAL_REIMBURSEMENT);
                      (AddOnKeys.GLASS_COVERAGE, AddOnWeights.GLASS_COVERAGE) ]))
              (Some ["gap_coverage"]) [])
    as (v & emitted & Hrun & Hshape & _).
  - vm_compute. reflexivity.
  - exists v, emitted. split; [exact Hrun | exact Hshape].
Defined.

(** X17: for a coverage type of the policy table the policy adjustment is
    never below the base weight, hence never below 1.0 and never the sentinel
    -1, whatever [add_ons] is ([None], unknown keys and duplicates included):
    every add-on weight of the table is positive and the loop only adds. *)
Theorem calc_policy_adjustment_lower_bound
    (policy_type : string) (policy_obj : PolicyObj.t Q)
    (add_ons : option (list string)) (log : list (LogRecord Q)) :
  PolicyAddOnMap.POLICY_ADD_ON_MAP !! policy_type = Some policy_obj ->
  exists v : Q,
    fst (calc_policy_adjustment (Some policy_type) add_ons log) = Returned v
    /\ (PolicyObj.weight policy_obj <= v)%Q
    /\ (1 <= v)%Q
    /\ ~ (v == -1)%Q.
Proof.
  intros Hl.
  destruct (policy_table_weights _ _ Hl) as [Hw Hpos].
  rewrite (calc_policy_adjustment_present _ _ _ _ Hl (weight_not_sentinel_Q _ _ Hl)).
  assert (Hadj : (0 <= fst (match add_ons with
                            | Some keys => add_ons_loop policy_obj keys (lit 0)
                            | None => (lit 0, Some (TypeError
                                         "'NoneType' object is not iterable"))
                            end))%Q).
  { destruct add_ons as [keys|]; [|cbn; lra].
    apply (add_ons_loop_ge policy_obj keys Hpos). }
  destruct (match add_ons with Some keys => _ | None => _ end) as [adjustments exc].
  cbn [fst] in *. eexists. split; [reflexivity|]. exact_arith.
  repeat split; lra.
Qed.

Lemma calc_policy_adjustment_lower_bound_witness :
  exists v : Q,
    fst (calc_policy_adjustment (Some "full_coverage") None []) = Returned v
    /\ (1 <= v)%Q.
Proof.
  destruct (calc_policy_adjustment_lower_bound "full_coverage"
              (PolicyObj.mk 1.5%Q
                 (dict_display
                    [ (AddOnKeys.ROADSIDE_ASSISTANCE, AddOnWeights.ROADSIDE_ASSISTANCE);
                      (AddOnKeys.RENTAL_REIMBURSEMENT, AddOnWeights.RENTAL_REIMBURSEMENT);
                      (AddOnKeys.GAP_COVERAGE, AddOnWeights.GAP_COVERAGE);
                      (AddOnKeys.GLASS_COVERAGE, AddOnWeights.GLASS_COVERAGE) ]))
              None [])
    as (v & Hrun & _ & Hone & _).
  - vm_compute. reflexivity.
  - exists v. split; [exact Hrun | exact Hone].
Defined.

(* ===================================================================== *)
(** * Further properties of the static tables *)
(* ===================================================================== *)

(** Splits a lookup in a dict display into its items. *)
Ltac lookup_display H :=
  unfold dict_display in H; cbn [foldl fst snd] in H;
  repeat (apply lookup_insert_Some in H as [[<- <-] | [_ H]]; [|]);
  try (rewrite lookup_empty in H; discriminate H).

(** X18: the add-ons each coverage type offers: rental reimbursement and
    glass coverage under all three, roadside assistance under all but
    collision only, gap coverage under full coverage only, and no other key;
    an add-on has the same weight under every coverage type that offers it. *)
Theorem policy_table_add_ons :
  forall (N : Type) (HN : PyNumber N) (policy_type : string) (policy_obj : PolicyObj.t N),
    PolicyAddOnMap.POLICY_ADD_ON_MAP !! policy_type = Some policy_obj ->
    known_add_on policy_obj AddOnKeys.RENTAL_REIMBURSEMENT
    /\ known_add_on policy_obj AddOnKeys.GLASS_COVERAGE
    /\ (known_add_on policy_obj AddOnKeys.ROADSIDE_ASSISTANCE
        <-> policy_type <> CoverageType.COLLISION_ONLY)
    /\ (known_add_on policy_obj AddOnKeys.GAP_COVERAGE
        <-> policy_type = CoverageType.FULL_COVERAGE)
    /\ (forall key, known_add_on policy_obj key ->
          In key [AddOnKeys.ROADSIDE_ASSISTANCE; AddOnKeys.RENTAL_REIMBURSEMENT;
                  AddOnKeys.GLASS_COVERAGE; AddOnKeys.GAP_COVERAGE])
    /\ (forall policy_type' policy_obj' key w w',
          PolicyAddOnMap.POLICY_ADD_ON_MAP !! policy_type' = Some policy_obj' ->
          PolicyObj.add_ons policy_obj !! key = Some w ->
          PolicyObj.add_ons policy_obj' !! key = Some w' ->
          w = w').
Proof.
  intros N HN policy_type policy_obj Hl.
  apply POLICY_ADD_ON_MAP_lookup in Hl. cbn in Hl. unfold known_add_on.
  destruct Hl as [Hl | [Hl | [Hl | []]]]; inversion Hl; subst; clear Hl;
    cbn [PolicyObj.add_ons].
  all: split; [eexists; vm_compute; reflexivity|].
  all: split; [eexists; vm_compute; reflexivity|].
  all: split;
    [first
       [ split; [intros _; discriminate | intros _; eexists; vm_compute; reflexivity]
       | split; [ intros [w Hw]; vm_compute in Hw; discriminate Hw
                | intros Hne; destruct Hne; reflexivity ] ]|].
  all: split;
    [first
       [ split; [intros _; reflexivity | intros _; eexists; vm_compute; reflexivity]
       | split; [ intros [w Hw]; vm_compute in Hw; discriminate Hw
                | intros Heq; discriminate Heq ] ]|].
  all: split; [intros key [w Hk]; lookup_display Hk; cbn; tauto|].
  all: intros policy_type' policy_obj' key w w' Hl' Hk Hk';
    apply POLICY_ADD_ON_MAP_lookup in Hl'; cbn in Hl';
    destruct Hl' as [Hl' | [Hl' | [Hl' | []]]]; inversion Hl'; subst; clear Hl';
    cbn [PolicyObj.add_ons] in Hk';
    lookup_display Hk; vm_compute in Hk';
    first [discriminate Hk' | injection Hk' as <-; reflexivity].
Qed.

Lemma policy_table_add_ons_witness :
  known_add_on
    (PolicyObj.mk (N:=Q) 1.2%Q
       (dict_display
          [ (AddOnKeys.RENTAL_REIMBURSEMENT, AddOnWeights.RENTAL_REIMBURSEMENT);
            (AddOnKeys.GLASS_COVERAGE, AddOnWeights.GLASS_COVERAGE) ]))
    AddOnKeys.GLASS_COVERAGE.
Proof.
  refine (proj1 (proj2 (policy_table_add_ons Q _ "collision_only" _ _))).
  vm_compute. reflexivity.
Defined.

(** X19: the discounts each coverage type offers: multi_policy under all
    but collision only, safe_driver under all but liability, low_mileage
    under all but full coverage, anti_theft under full coverage only, and no
    other key; a discount has the same fraction under every coverage type
    that offers it. *)
Theorem discount_table_offers :
  forall (N : Type) (HN : PyNumber N) (policy_type : string)
         (discount_obj : gmap string N),
    PolicyDiscountMap.POLICY_DISCOUNT_MAP !! policy_type = Some discount_obj ->
    (is_Some (discount_obj !! DiscountKeys.MULTI_POLICY)
     <-> policy_type <> CoverageType.COLLISION_ONLY)
    /\ (is_Some (discount_obj !! DiscountKeys.SAFE_DRIVER)
        <-> policy_type <> CoverageType.LIABILITY)
    /\ (is_Some (discount_obj !! DiscountKeys.LOW_MILEAGE)
        <-> policy_type <> CoverageType.FULL_COVERAGE)
    /\ (is_Some (discount_obj !! DiscountKeys.ANTI_THEFT)
        <-> policy_type = CoverageType.FULL_COVERAGE)
    /\ (forall key, is_Some (discount_obj !! key) -> In key discount_keys_in_order)
    /\ (forall policy_type' discount_obj' key w w',
          PolicyDiscountMap.POLICY_DISCOUNT_MAP !! policy_type' = Some discount_obj' ->
          discount_obj !! key = Some w ->
          discount_obj' !! key = Some w' ->
          w = w').
Proof.
  intros N HN policy_type discount_obj Hl.
  apply POLICY_DISCOUNT_MAP_lookup in Hl. cbn in Hl.
  destruct Hl as [Hl | [Hl | [Hl | []]]]; inversion Hl; subst; clear Hl.
  all: do 3 (split;
    [first
       [ split; [intros _; discriminate | intros _; eexists; vm_compute; reflexivity]
       | split; [ intros [w Hw]; vm_compute in Hw; discriminate Hw
                | intros Hne; destruct Hne; reflexivity ] ]|]).
  all: split;
    [first
       [ split; [intros _; reflexivity | intros _; eexists; vm_compute; reflexivity]
       | split; [ intros [w Hw]; vm_compute in Hw; discriminate Hw
                | intros Heq; discriminate Heq ] ]|].
  all: split; [intros key [w Hk]; lookup_display Hk; cbn; tauto|].
  all: intros policy_type' discount_obj' key w w' Hl' Hk Hk';
    apply POLICY_DISCOUNT_MAP_lookup in Hl'; cbn in Hl';
    destruct Hl' as [Hl' | [Hl' | [Hl' | []]]]; inversion Hl'; subst; clear Hl';
    lookup_display Hk; vm_compute in Hk';
    first [discriminate Hk' | injection Hk' as <-; reflexivity].
Qed.

Lemma discount_table_offers_witness :
  is_Some (dict_display (V:=Q)
             [ (DiscountKeys.MULTI_POLICY, DiscountWeights.MULTI_POLICY);
               (DiscountKeys.SAFE_DRIVER, DiscountWeights.SAFE_DRIVER);
               (DiscountKeys.ANTI_THEFT, DiscountWeights.ANTI_THEFT) ]
           !! DiscountKeys.ANTI_THEFT).
Proof.
  refine (proj2 (proj1 (proj2 (proj2 (proj2
            (discount_table_offers Q _ "full_coverage" _ _))))) _).
  - vm_compute. reflexivity.
  - reflexivity.
Defined.

(* ===================================================================== *)
(** * Further properties of a quote across coverage types *)
(* ===================================================================== *)

(** X20: for one request quoted without add-ons under each coverage type,
    the gross quote under full coverage is 1.5 times, and under collision
    only 1.2 times, the gross quote under liability: the coverage type enters
    the gross quote through its base weight alone. *)
Theorem gross_quote_across_coverage_types
    (quote_inputs_ctx : QuoteInputs.t Q) (log : list (LogRecord Q)) :
  exists liability full_coverage collision_only : QuoteResult.t Q,
    fst (calculate_quote
           (with_policy quote_inputs_ctx
              (PolicyInputs.mk (Some CoverageType.LIABILITY) (Some []))) log)
    = Returned liability
    /\ fst (calculate_quote
              (with_policy quote_inputs_ctx
                 (PolicyInputs.mk (Some CoverageType.FULL_COVERAGE) (Some []))) log)
       = Returned full_coverage
    /\ fst (calculate_quote
              (with_policy quote_inputs_ctx
                 (PolicyInputs.mk (Some CoverageType.COLLISION_ONLY) (Some []))) log)
       = Returned collision_only
    /\ (QuoteResult.original_quote full_coverage
        == 1.5 * QuoteResult.original_quote liability)%Q
    /\ (QuoteResult.original_quote collision_only
        == 1.2 * QuoteResult.original_quote liability)%Q
    /\ Weights.driver_risk (QuoteResult.weights full_coverage)
       = Weights.driver_risk (QuoteResult.weights liability)
    /\ Weights.vehicle_risk (QuoteResult.weights full_coverage)
       = Weights.vehicle_risk (QuoteResult.weights liability)
    /\ Weights.location_risk (QuoteResult.weights full_coverage)
       = Weights.location_risk (QuoteResult.weights liability).
Proof.
  rewrite !calculate_quote_outcome. unfold spec_outcome, with_policy. cbv zeta.
  cbn [QuoteInputs.policy_inputs QuoteInputs.discount_inputs
       PolicyInputs.coverage_type PolicyInputs.add_ons].
  set (discounts := DiscountsInputs.discounts _).
  destruct (calc_discounts_returns (N:=Q) (Some CoverageType.LIABILITY) discounts [])
    as [dl ->].
  destruct (calc_discounts_returns (N:=Q) (Some CoverageType.FULL_COVERAGE) discounts [])
    as [df ->].
  destruct (calc_discounts_returns (N:=Q) (Some CoverageType.COLLISION_ONLY) discounts [])
    as [dc ->].
  replace (fst (calc_policy_adjustment (N:=Q) (Some CoverageType.LIABILITY) (Some []) []))
    with (Returned (1.0 + 0)%Q) by (vm_compute; reflexivity).
  replace (fst (calc_policy_adjustment (N:=Q) (Some CoverageType.FULL_COVERAGE) (Some []) []))
    with (Returned (1.5 + 0)%Q) by (vm_compute; reflexivity).
  replace (fst (calc_policy_adjustment (N:=Q) (Some CoverageType.COLLISION_ONLY) (Some []) []))
    with (Returned (1.2 + 0)%Q) by (vm_compute; reflexivity).
  eexists _, _, _. repeat (split; [reflexivity|]).
  unfold spec_quote. cbv zeta.
  cbn [QuoteResult.original_quote QuoteResult.weights Weights.driver_risk
       Weights.vehicle_risk Weights.location_risk
       QuoteInputs.driver_inputs QuoteInputs.vehicle_inputs QuoteInputs.location_inputs].
  exact_arith. repeat split; ring.
Qed.



(* ===================================================================== *)
(** * Further properties of the vehicle scores *)
(* ===================================================================== *)

